(** * lib/model/task.js: the watch task entity

    A shallow embedding of [Task] (constructor, [toJSON], [sched], [test],
    [run], the state transitions, [_patch]) and of the helpers [makeHash],
    [_Merge] and [_Now], followed by the properties of the specification
    that are checked against it.

    Conventions of the embedding.
    - Field types follow the [@param] block of the constructor: strings,
      epochs and ints are optional ([None] is an absent / undefined
      field); [patches] is absent, a single string or an array of strings;
      [cron] is absent, a number or a string.  These are the cases that
      the [typeof] tests of the constructor tell apart.
    - JavaScript numbers are modelled by [Z]: the embedding covers the
      integer values (epochs, counters, status codes), on which double
      arithmetic is exact below 2^53.
    - The clock is an oracle: [Date_now k] is the value returned by the
      k-th call of [Date.now()], and the world counts the calls made.
    - [emit], [request] and the timer are collaborators of the entity:
      emitting appends to the trace [emitted], issuing a request appends
      the request and its continuation to [outbox], and the completion of
      a request is a separate step ([deliver]).
    - The timer library [cron] is outside the file.  Its job is kept as
      what the entity reads and causes: the [running] flag, which
      [active], [stop] and [expire] branch on.  Two answers of the
      library are inputs: [CronJob_rejects], the patterns on which
      [new CronJob] throws, and [ahead], whether the date of a one-shot
      job is still to come when [start()] is called.  A firing of the
      timer is a separate step ([fire]), which the library makes for a
      running job only.  *)

From Stdlib Require Import ZArith Lia Bool List.
From stdpp Require Import base option strings gmap.

Local Open Scope Z_scope.

(** ** Values of the entity *)

Module Counts.
Record t : Type := mk { run : Z; err : Z; succ : Z }.
Definition zero : t := mk 0 0 0.
End Counts.

Module Last.
(** [None] stands for [null]. *)
Record t : Type := mk { succ : option bool; date : option Z }.
Definition null : t := mk None None.
End Last.

Inductive Patches : Type :=
| PUndef
| PStr (v : string)
| PArr (vs : list string).

Inductive Cron : Type :=
| CUndef
| CNum (epoch : Z)
| CStr (pattern : string).

(** The handle kept in [_cronJob]: what the job was created from, the
    [once] flag captured by its tick function, and the library's
    [running] flag. *)
Inductive CronTime : Type :=
| AtDate (ms : Z)
| AtPattern (pattern : string).

Record CronJob : Type := mkCronJob {
  cronTime : CronTime;
  once : bool;
  running : bool
}.

(** The thirteen configuration keys of the [@param] block. *)
Record Props : Type := mkProps {
  name : option string;
  state : option Z;
  url : option string;
  callback : option string;
  timeout : option Z;
  hash : option string;
  urlTemplate : option string;
  callbackTemplate : option string;
  patches : Patches;
  cron : Cron;
  expireAt : option Z;
  created : option Z;
  updated : option Z
}.

(** A plain object with the sixteen keys listed in [toJSON]: the argument
    of the constructor and the result of [toJSON].  A configuration
    literal has no transient key, hence the options. *)
Record Obj : Type := mkObj {
  o_props : Props;
  o_running : option bool;
  o_counts : option Counts.t;
  o_last : option Last.t
}.

(** The live entity after construction: the configuration fields, the
    transient fields set by the last three lines of the constructor, and
    the timer handle. *)
Record Task : Type := mkTask {
  props : Props;
  _running : bool;
  _counts : Counts.t;
  _last : Last.t;
  _cronJob : option CronJob
}.

(** Task state constants *)
Definition ACTIVE : Z := 0.
Definition STOPPED : Z := 1.
Definition EXPIRED : Z := 2.

(** Field assignments ([this.k = v]). *)
Definition set_state (v : option Z) (p : Props) : Props :=
  mkProps (name p) v (url p) (callback p) (timeout p) (hash p)
    (urlTemplate p) (callbackTemplate p) (patches p) (cron p) (expireAt p)
    (created p) (updated p).
Definition set_hash (v : option string) (p : Props) : Props :=
  mkProps (name p) (state p) (url p) (callback p) (timeout p) v
    (urlTemplate p) (callbackTemplate p) (patches p) (cron p) (expireAt p)
    (created p) (updated p).
Definition set_patches (v : Patches) (p : Props) : Props :=
  mkProps (name p) (state p) (url p) (callback p) (timeout p) (hash p)
    (urlTemplate p) (callbackTemplate p) v (cron p) (expireAt p)
    (created p) (updated p).
Definition set_cron (v : Cron) (p : Props) : Props :=
  mkProps (name p) (state p) (url p) (callback p) (timeout p) (hash p)
    (urlTemplate p) (callbackTemplate p) (patches p) v (expireAt p)
    (created p) (updated p).
Definition set_expireAt (v : option Z) (p : Props) : Props :=
  mkProps (name p) (state p) (url p) (callback p) (timeout p) (hash p)
    (urlTemplate p) (callbackTemplate p) (patches p) (cron p) v
    (created p) (updated p).
Definition set_created (v : option Z) (p : Props) : Props :=
  mkProps (name p) (state p) (url p) (callback p) (timeout p) (hash p)
    (urlTemplate p) (callbackTemplate p) (patches p) (cron p) (expireAt p)
    v (updated p).
Definition set_updated (v : option Z) (p : Props) : Props :=
  mkProps (name p) (state p) (url p) (callback p) (timeout p) (hash p)
    (urlTemplate p) (callbackTemplate p) (patches p) (cron p) (expireAt p)
    (created p) v.

Definition with_props (f : Props -> Props) (t : Task) : Task :=
  mkTask (f (props t)) (_running t) (_counts t) (_last t) (_cronJob t).
Definition set_running (b : bool) (t : Task) : Task :=
  mkTask (props t) b (_counts t) (_last t) (_cronJob t).
Definition set_counts (c : Counts.t) (t : Task) : Task :=
  mkTask (props t) (_running t) c (_last t) (_cronJob t).
Definition set_last (l : Last.t) (t : Task) : Task :=
  mkTask (props t) (_running t) (_counts t) l (_cronJob t).
Definition set_cronJob (j : option CronJob) (t : Task) : Task :=
  mkTask (props t) (_running t) (_counts t) (_last t) j.

(** ** Truthiness and strict comparison *)

Definition truthy_str (v : option string) : bool :=
  match v with
  | Some s => negb (String.eqb s "")
  | None => false
  end.

Definition truthy_num (v : option Z) : bool :=
  match v with
  | Some n => negb (n =? 0)
  | None => false
  end.

Definition truthy_cron (v : Cron) : bool :=
  match v with
  | CUndef => false
  | CNum n => negb (n =? 0)
  | CStr s => negb (String.eqb s "")
  end.

(** [v === s] for a string [s], and [v === n] for a number [n]. *)
Definition strict_eq_str (v : option string) (s : string) : bool :=
  match v with
  | Some s' => String.eqb s' s
  | None => false
  end.

Definition strict_eq_num (v : option Z) (n : Z) : bool :=
  match v with
  | Some n' => n' =? n
  | None => false
  end.

(** [v || ''] *)
Definition or_empty (v : option string) : string :=
  if truthy_str v then default ""%string v else ""%string.

(** ** The world around the entity *)

Inductive exn : Type :=
| Error (msg : string)
| SyntaxError.

Inductive res (A : Type) : Type :=
| Ok (a : A)
| Throw (e : exn).
Arguments Ok {A} a.
Arguments Throw {A} e.

(** The options object handed to [request]. *)
Record Request : Type := mkRequest {
  rq_method : option string;
  rq_url : option string;
  rq_body : option string;
  rq_headers : list (string * option string);
  rq_timeout : option Z
}.

(** What [request] hands to its completion function: [(err)] or
    [(null, res, body)]. *)
Inductive Response : Type :=
| NetErr (err : string)
| Reply (statusCode : Z) (headers : gmap string string) (body : string).

(** The completion functions passed to [request], as data: the one of
    [test] (with or without [cb]), the one of [run], and the inner one of
    [run] with the [headers], [body] and [hash] it closes over. *)
Inductive Cont : Type :=
| KTest (cb : bool)
| KRun
| KRunCallback (headers : gmap string string) (body : string) (hash : string).

Record World : Type := mkWorld {
  self : Task;
  emitted : list string;
  outbox : list (Request * Cont);
  ticks : nat
}.

(** Computations on the world that return or throw; a throw keeps the
    mutations made before it. *)
Definition M (A : Type) : Type := World -> res A * World.

#[global] Instance M_ret : MRet M := fun A a w => (Ok a, w).
#[global] Instance M_bind : MBind M := fun A B f m w =>
  match m w with
  | (Ok a, w') => f a w'
  | (Throw e, w') => (Throw e, w')
  end.

Definition throw {A : Type} (e : exn) : M A := fun w => (Throw e, w).
Definition get_self : M Task := fun w => (Ok (self w), w).
Definition modify_self (f : Task -> Task) : M unit := fun w =>
  (Ok tt, mkWorld (f (self w)) (emitted w) (outbox w) (ticks w)).

(** [self.emit(ev)]: the listeners belong to the persistence layer; the
    entity's side of it is the emission itself. *)
Definition emit (ev : string) : M unit := fun w =>
  (Ok tt, mkWorld (self w) (emitted w ++ [ev]) (outbox w) (ticks w)).

(** [request(options, k)]: the call returns at once; the completion [k]
    runs in a later turn. *)
Definition request (rq : Request) (k : Cont) : M unit := fun w =>
  (Ok tt, mkWorld (self w) (emitted w) (outbox w ++ [(rq, k)]) (ticks w)).

(** [array.forEach(f)] *)
Fixpoint forEach {A : Type} (f : A -> M unit) (l : list A) : M unit :=
  match l with
  | [] => mret tt
  | x :: l' => f x;; forEach f l'
  end.

(** [~~x] on an integer: wrap to a signed 32-bit integer. *)
Definition toInt32 (x : Z) : Z := (x + 2 ^ 31) mod 2 ^ 32 - 2 ^ 31.

Section Clock.
(** [Date_now k]: milliseconds returned by the k-th call of [Date.now()]. *)
Variable Date_now : nat -> Z.

(** The value [_Now()] computes from the k-th reading of the clock:
    [~~(Date.now() / 1000)]. *)
Definition epoch_at (k : nat) : Z := toInt32 (Date_now k ÷ 1000).

Definition _Now : M Z := fun w =>
  (Ok (epoch_at (ticks w)),
   mkWorld (self w) (emitted w) (outbox w) (S (ticks w))).
End Clock.

(** ** Helpers *)

(** [_Merge(obj, add)]: copies every key of [add] over [obj].  A key that
    is absent from [add] keeps the value of [obj].  (A key of [add] that
    holds [undefined] reads as absent here; the one call of [_Merge], in
    the constructor, merges into the fresh object, where it makes no
    difference.) *)
Definition merge_opt {A : Type} (o a : option A) : option A :=
  match a with
  | Some _ => a
  | None => o
  end.

Definition _Merge_props (o a : Props) : Props :=
  mkProps (merge_opt (name o) (name a)) (merge_opt (state o) (state a))
    (merge_opt (url o) (url a)) (merge_opt (callback o) (callback a))
    (merge_opt (timeout o) (timeout a)) (merge_opt (hash o) (hash a))
    (merge_opt (urlTemplate o) (urlTemplate a))
    (merge_opt (callbackTemplate o) (callbackTemplate a))
    (match patches a with PUndef => patches o | v => v end)
    (match cron a with CUndef => cron o | v => v end)
    (merge_opt (expireAt o) (expireAt a))
    (merge_opt (created o) (created a)) (merge_opt (updated o) (updated a)).

Definition _Merge (obj : Obj) (add : option Obj) : Obj :=
  match add with
  | Some a =>
      mkObj (_Merge_props (o_props obj) (o_props a))
        (merge_opt (o_running obj) (o_running a))
        (merge_opt (o_counts obj) (o_counts a))
        (merge_opt (o_last obj) (o_last a))
  | None => obj
  end.

(** The object the constructor starts from: none of the sixteen keys. *)
Definition blank_props : Props :=
  mkProps None None None None None None None None PUndef CUndef None None None.
Definition blank : Obj := mkObj blank_props None None None.

Section Hash.
(** The digest of [crypto]: SHA-256 of the bytes fed to it, in hex. *)
Variable sha256_hex : string -> string.

(** Two [update] calls feed the concatenation of their arguments. *)
Definition makeHash (headers : gmap string string) (body : string) : string :=
  sha256_hex
    (or_empty (headers !! "content-type"%string) ++ or_empty (Some body)).
End Hash.

(** ** The constructor and [toJSON] *)

Section Construction.
Variable Date_now : nat -> Z.

(** The assignments of the constructor, one definition per [if] of the
    source.  Those that call [_Now()] take the number [k] of clock
    readings made so far and return the number made afterwards. *)

(** [if (!this.state) this.state = Task.ACTIVE] *)
Definition default_state (this : Props) : Props :=
  if negb (truthy_num (state this)) then set_state (Some ACTIVE) this
  else this.

(** [if (typeof this.patches === 'string') this.patches = [this.patches]] *)
Definition wrap_patches (this : Props) : Props :=
  match patches this with
  | PStr v => set_patches (PArr [v]) this
  | _ => this
  end.

(** [if (typeof this.cron === 'number' && this.cron < 1000000)
      this.cron += _Now()] *)
Definition offset_cron (this : Props) (k : nat) : Props * nat :=
  match cron this with
  | CNum c =>
      if c <? 1000000
      then (set_cron (CNum (c + epoch_at Date_now k)) this, S k)
      else (this, k)
  | _ => (this, k)
  end.

(** [if (this.expireAt && this.expireAt < 1000000)
      this.expireAt += _Now()] *)
Definition offset_expireAt (this : Props) (k : nat) : Props * nat :=
  match expireAt this with
  | Some e =>
      if truthy_num (Some e) && (e <? 1000000)
      then (set_expireAt (Some (e + epoch_at Date_now k)) this, S k)
      else (this, k)
  | None => (this, k)
  end.

(** [if (!this.created) this.created = _Now()] *)
Definition default_created (this : Props) (k : nat) : Props * nat :=
  if negb (truthy_num (created this))
  then (set_created (Some (epoch_at Date_now k)) this, S k)
  else (this, k).

(** [if (!this.updated) this.updated = this.created] *)
Definition default_updated (this : Props) : Props :=
  if negb (truthy_num (updated this)) then set_updated (created this) this
  else this.

(** [new Task(task)], started when [k] readings of the clock have been
    made; returns the entity (or the error thrown) and the number of
    readings made afterwards. *)
Definition Task_new (task : option Obj) (k : nat) : res Task * nat :=
  let this := o_props (_Merge blank task) in
  if negb (truthy_str (name this)) then
    (Throw (Error "`name` must has a value"), k)
  else
  let this := default_state this in
  if negb (truthy_str (url this)) then
    (Throw (Error "`url` must has a value"), k)
  else
  let this := wrap_patches this in
  let '(this, k) := offset_cron this k in
  let '(this, k) := offset_expireAt this k in
  let '(this, k) := default_created this k in
  let this := default_updated this in
  (* the last three assignments replace whatever was merged into
     [_running], [_counts] and [_last] *)
  (Ok (mkTask this false Counts.zero Last.null None), k).
End Construction.

(** [toJSON]: the sixteen listed keys, read off the entity. *)
Definition toJSON (t : Task) : Obj :=
  mkObj (props t) (Some (_running t)) (Some (_counts t)) (Some (_last t)).

(** ** The timer *)

(** The timer library, as far as the entity observes it: the [running]
    flag of the job.

    [start()] does nothing on a running job.  Otherwise it arms the job
    and sets [running], except for a one-shot job whose date has passed,
    which it leaves stopped.  Whether the date is still ahead is the
    library's reading of the clock at the moment of the call; it is an
    input of the call here, [ahead].  [stop()] clears [running].  When a
    job fires, the library clears [running] of a one-shot job before it
    calls the tick function, and arms a recurring job again, whose flag
    stays set. *)
Definition CronJob_start (ahead : bool) (j : CronJob) : CronJob :=
  if running j then j
  else
    mkCronJob (cronTime j) (once j)
      match cronTime j with
      | AtDate _ => ahead
      | AtPattern _ => true
      end.
Definition CronJob_stop (j : CronJob) : CronJob :=
  mkCronJob (cronTime j) (once j) false.
Definition CronJob_fired (j : CronJob) : CronJob :=
  match cronTime j with
  | AtDate _ => CronJob_stop j
  | AtPattern _ => j
  end.

(** The options of the GET issued by [test] and [run]. *)
Definition rsrc (t : Task) : Request :=
  mkRequest None (url (props t)) None []
    (if truthy_num (timeout (props t))
     then (fun s => s * 1000) <$> timeout (props t) else None).

(** What [test] passes to [cb]: [(err || statusCode)] or
    [(err, headers, body, modified)]. *)
Inductive Report : Type :=
| CbErr (e : string + Z)
| CbOk (headers : gmap string string) (body : string) (modified : bool).

Section Methods.
Variable Date_now : nat -> Z.
Variable sha256_hex : string -> string.

(** [JSON.parse]: [None] when it throws a [SyntaxError]. *)
Variable Json : Type.
Variable JSON_parse : string -> option Json.

(** Modelled from the spec: the patch transforms [lib/patch/<name>] are
    plug-ins outside this file, with signature [(task, parsedBody) ->
    void]; a transform may mutate the entity arbitrarily and may throw.
    [patch_module v t data] is the entity left by
    [try { require('../patch/' + v)(t, data) } catch (e) {}], whether
    the module was missing, threw, or returned. *)
Variable patch_module : string -> Task -> Json -> Task.

(** The parser of the timer library: [Some msg] when [new CronJob]
    throws [Error(msg)] on a pattern it cannot parse. *)
Variable CronJob_rejects : string -> option string.

(** *** State transitions

    [active] takes the answer [ahead] of the library to the [start()] it
    may call. *)

Definition _transit (newState : Z) : M unit :=
  modify_self (with_props (set_state (Some newState)));;
  now ← _Now Date_now;
  modify_self (with_props (set_updated (Some now)));;
  emit "change".

Definition active (ahead : bool) : M unit :=
  this ← get_self;
  if negb (strict_eq_num (state (props this)) ACTIVE) then
    _transit ACTIVE;;
    this ← get_self;
    match _cronJob this with
    | Some j =>
        if negb (running j)
        then modify_self (set_cronJob (Some (CronJob_start ahead j)))
        else mret tt
    | None => mret tt
    end
  else mret tt.

Definition stop : M unit :=
  this ← get_self;
  if negb (strict_eq_num (state (props this)) STOPPED) then
    _transit STOPPED;;
    this ← get_self;
    match _cronJob this with
    | Some j =>
        if running j
        then modify_self (set_cronJob (Some (CronJob_stop j)))
        else mret tt
    | None => mret tt
    end
  else mret tt.

Definition expire : M unit :=
  this ← get_self;
  if negb (strict_eq_num (state (props this)) EXPIRED) then
    _transit EXPIRED;;
    this ← get_self;
    match _cronJob this with
    | Some j =>
        if running j
        then modify_self (set_cronJob (Some (CronJob_stop j)))
        else mret tt
    | None => mret tt
    end
  else mret tt.

(** *** The prober *)

Definition test (cb : bool) : M unit :=
  this ← get_self;
  request (rsrc this) (KTest cb).

(** The completion function of [test]; the result is what [cb] is
    called with, [None] when [cb] is not called. *)
Definition test_response (cb : bool) (r : Response) : M (option Report) :=
  if negb cb then mret None
  else
    match r with
    | NetErr err => mret (Some (CbErr (inl err)))
    | Reply statusCode headers body =>
        if negb (statusCode =? 200) then mret (Some (CbErr (inr statusCode)))
        else
          this ← get_self;
          mret (Some (CbOk headers body
                        (negb (strict_eq_str (hash (props this))
                                 (makeHash sha256_hex headers body)))))
    end.

(** *** The patch pipeline *)

Definition _patch (headers : gmap string string) (body : string) : M unit :=
  this ← get_self;
  match patches (props this) with
  | PArr (v :: vs) =>
      match JSON_parse body with
      | None => throw SyntaxError
      | Some data =>
          forEach (fun v => modify_self (fun t => patch_module v t data))
            (v :: vs);;
          now ← _Now Date_now;
          modify_self (with_props (set_updated (Some now)));;
          emit "change"
      end
  | _ => mret tt
  end.

(** *** The run pipeline *)

Definition upd (succ : bool) : M unit :=
  modify_self (set_running false);;
  modify_self (fun t =>
    set_last (Last.mk (Some succ) (Last.date (_last t))) t);;
  now ← _Now Date_now;
  modify_self (fun t =>
    set_last (Last.mk (Last.succ (_last t)) (Some now)) t);;
  modify_self (fun t =>
    let c := _counts t in
    set_counts (Counts.mk (Counts.run c + 1) (Counts.err c) (Counts.succ c)) t);;
  modify_self (fun t =>
    let c := _counts t in
    set_counts
      (if succ
       then Counts.mk (Counts.run c) (Counts.err c) (Counts.succ c + 1)
       else Counts.mk (Counts.run c) (Counts.err c + 1) (Counts.succ c)) t).

Definition rerr : M unit := upd false.

Definition nochange : M unit := upd true.

Definition succ (headers : gmap string string) (body : string)
    (hash : string) : M unit :=
  modify_self (with_props (set_hash (Some hash)));;
  now ← _Now Date_now;
  modify_self (with_props (set_updated (Some now)));;
  emit "change";;
  _patch headers body;;
  upd true.

(** [run(cb)]: [Some false] is the value [false], [None] is the
    [undefined] of falling off the end.  [cb] is a parameter of the
    function and is referred to nowhere in its body. *)
Definition run (cb : option (M unit)) : M (option bool) :=
  this ← get_self;
  if negb (_running this) then
    modify_self (set_running true);;
    self ← get_self;
    request (rsrc self) KRun;;
    mret None
  else mret (Some false).

(** The POST that forwards a change to [callback]. *)
Definition callbk (t : Task) (headers : gmap string string)
    (body : string) : Request :=
  mkRequest (Some "POST"%string) (callback (props t)) (Some body)
    [("date"%string, headers !! "date"%string);
     ("content-type"%string, headers !! "content-type"%string)]
    (if truthy_num (timeout (props t))
     then (fun s => s * 1000) <$> timeout (props t) else None).

(** The completion function of the GET of [run]. *)
Definition run_response (r : Response) : M unit :=
  match r with
  | NetErr _ => rerr
  | Reply statusCode headers body =>
      if negb (statusCode =? 200) then rerr
      else
        let hash' := makeHash sha256_hex headers body in
        self ← get_self;
        if strict_eq_str (hash (props self)) hash' then nochange
        else if negb (truthy_str (callback (props self))) then
          succ headers body hash'
        else
          request (callbk self headers body) (KRunCallback headers body hash')
  end.

(** The completion function of the POST of [run]. *)
Definition run_callback_response (headers : gmap string string)
    (body : string) (hash : string) (r_ : Response) : M unit :=
  match r_ with
  | NetErr _ => rerr
  | Reply statusCode_ _ _ =>
      if negb (statusCode_ =? 200) then rerr
      else succ headers body hash
  end.

(** A completion function applied to the response of its request. *)
Definition deliver (k : Cont) (r : Response) : M (option Report) :=
  match k with
  | KTest cb => test_response cb r
  | KRun => run_response r;; mret None
  | KRunCallback headers body hash =>
      run_callback_response headers body hash r;; mret None
  end.

(** *** The scheduler *)

(** The tick function given to the timer. *)
Definition onTick (once : bool) : M (option bool) :=
  run (Some (if once then stop else mret tt)).

(** [new CronJob(cron, onTick)]: the job is created stopped; a pattern
    the library cannot parse makes the constructor throw. *)
Definition CronJob_new (cron' : CronTime) (once : bool) : M CronJob :=
  match cron' with
  | AtDate _ => mret (mkCronJob cron' once false)
  | AtPattern s =>
      match CronJob_rejects s with
      | Some msg => throw (Error msg)
      | None => mret (mkCronJob cron' once false)
      end
  end.

Definition sched (ahead : bool) : M unit :=
  this ← get_self;
  match _cronJob this with
  | Some j =>
      modify_self (set_cronJob (Some (CronJob_stop j)));;
      modify_self (set_cronJob None)
  | None => mret tt
  end;;
  this ← get_self;
  if truthy_cron (cron (props this)) then
    let once := match cron (props this) with CNum _ => true | _ => false end in
    let cron' :=
      match cron (props this) with
      | CNum c => AtDate (c * 1000)
      | CStr s => AtPattern s
      | CUndef => AtPattern "" (* not reached: an absent cron is falsy *)
      end in
    job ← CronJob_new cron' once;
    modify_self (set_cronJob (Some job));;
    this ← get_self;
    if strict_eq_num (state (props this)) ACTIVE then
      modify_self (fun t => set_cronJob (CronJob_start ahead <$> _cronJob t) t)
    else mret tt
  else mret tt.

(** The timer fires, which the library makes happen for a running job
    only: the library does its part, then the tick function runs. *)
Definition fire : M (option bool) :=
  this ← get_self;
  match _cronJob this with
  | Some j =>
      if running j then
        modify_self (set_cronJob (Some (CronJob_fired j)));;
        onTick (once j)
      else mret None
  | None => mret None
  end.
End Methods.

(** ** Properties *)

(** A response that [run] and its POST treat as a failure: a transport
    error or a status other than 200. *)
Definition failed (r : Response) : bool :=
  match r with
  | NetErr _ => true
  | Reply statusCode _ _ => negb (statusCode =? 200)
  end.

(** What one state-transition operation has to do, for its target state. *)
Definition transition_spec (Date_now : nat -> Z) (op : M unit) (target : Z)
    : Prop :=
  forall w : World,
    (state (props (self w)) = Some target -> op w = (Ok tt, w)) /\
    (state (props (self w)) <> Some target ->
     exists w' : World,
       op w = (Ok tt, w') /\
       state (props (self w')) = Some target /\
       updated (props (self w')) = Some (epoch_at Date_now (ticks w)) /\
       emitted w' = emitted w ++ ["change"%string] /\
       op w' = (Ok tt, w')).

(** Two serialized forms that agree on every key except [_running]. *)
Definition same_serialized (a b : Obj) : Prop :=
  o_props a = o_props b /\ o_counts a = o_counts b /\ o_last a = o_last b.

(** Feeding [toJSON] back into the constructor reproduces the entity,
    modulo [_running]. *)
Definition round_trips (Date_now : nat -> Z) (k : nat) (t : Task) : Prop :=
  exists (t' : Task) (k' : nat),
    Task_new Date_now (Some (toJSON t)) k = (Ok t', k') /\
    _running t' = false /\
    same_serialized (toJSON t') (toJSON t).

(** The keys no assignment of the constructor writes. *)
Definition same_identity (p q : Props) : Prop :=
  name p = name q /\ url p = url q /\ callback p = callback q /\
  timeout p = timeout q /\ hash p = hash q /\
  urlTemplate p = urlTemplate q /\ callbackTemplate p = callbackTemplate q.

(** Configuration fields on which every conditional assignment of the
    constructor is skipped: [state] present, [patches] not a bare string,
    a numeric [cron] at or above the threshold, [expireAt] falsy or at or
    above the threshold, [created] and [updated] truthy. *)
Definition normalised (p : Props) : Prop :=
  state p <> None /\
  (forall v, patches p <> PStr v) /\
  (forall c, cron p = CNum c -> 1000000 <= c) /\
  (forall e, expireAt p = Some e -> e = 0 \/ 1000000 <= e) /\
  truthy_num (created p) = true /\
  truthy_num (updated p) = true.

(** A clock for the examples: the first reading is at epoch 1000 (the
    construction time of the example of the specification), and each
    reading comes one second after the one before. *)
Definition example_clock (k : nat) : Z := 1000000 + 1000 * Z.of_nat k.

(** [{name: 't1', url: 'http://example', cron: 30}] *)
Definition example_t1 : Obj :=
  mkObj (mkProps (Some "t1"%string) None (Some "http://example"%string)
           None None None None None PUndef (CNum 30) None None None)
    None None None.

(** The entity built from [example_t1] on [example_clock]. *)
Definition t1_constructed : Task :=
  mkTask
    (mkProps (Some "t1"%string) (Some ACTIVE) (Some "http://example"%string)
       None None None None None PUndef (CNum 1030) None (Some 1001) (Some 1001))
    false Counts.zero Last.null None.

(** The world once [sched] has been called on it while the date of the
    one-shot timer is ahead: the timer is created and started. *)
Definition t1_scheduled : World :=
  mkWorld
    (set_cronJob (Some (mkCronJob (AtDate 1030000) true true)) t1_constructed)
    [] [] 2.

(** The world once the timer has fired: the one-shot timer is over and
    the run is in flight. *)
Definition t1_in_flight : World :=
  mkWorld
    (set_running true
       (set_cronJob (Some (mkCronJob (AtDate 1030000) true false))
          t1_constructed))
    [] [(rsrc t1_constructed, KRun)] 2.

(** The same entity after one run that ended in a transport error. *)
Definition t1_after_failed_run : Task :=
  mkTask (props t1_constructed) false (Counts.mk 1 1 0)
    (Last.mk (Some false) (Some 1002)) None.

(** The timer handle after a transition that changed the state:
    [active] calls [start()] on a stopped timer ([Some ahead], with the
    library's answer), [stop] and [expire] call [stop()] on a running
    one ([None]). *)
Definition timer_after (start : option bool) (j : option CronJob)
    : option CronJob :=
  match j with
  | Some j =>
      match start with
      | Some ahead =>
          if negb (running j) then Some (CronJob_start ahead j) else Some j
      | None => if running j then Some (CronJob_stop j) else Some j
      end
  | None => None
  end.

(** The world after a transition to [target] that changed the state. *)
Definition after_transit (Date_now : nat -> Z) (start : option bool)
    (target : Z) (w : World) : World :=
  mkWorld
    (mkTask
       (set_updated (Some (epoch_at Date_now (ticks w)))
          (set_state (Some target) (props (self w))))
       (_running (self w)) (_counts (self w)) (_last (self w))
       (timer_after start (_cronJob (self w))))
    (emitted w ++ ["change"%string]) (outbox w) (S (ticks w)).

(** *** An environment for the examples

    The properties below are stated for every clock, digest, parser, set
    of patch modules and cron grammar.  The examples need one of each. *)

(** A digest that tells contents apart exactly. *)
Definition example_digest (s : string) : string := s.

(** The three literal names of JSON. *)
Inductive JsonLiteral : Type := JNull | JTrue | JFalse.

(** [JSON.parse] on the bodies of the examples: a literal name parses to
    its value; the other texts used below are not JSON. *)
Definition example_parse (s : string) : option JsonLiteral :=
  if String.eqb s "null" then Some JNull
  else if String.eqb s "true" then Some JTrue
  else if String.eqb s "false" then Some JFalse
  else None.

(** A parser of cron patterns for the examples: it accepts the pattern
    of every minute and refuses any other text with the library's
    message for too few fields. *)
Definition example_rejects (s : string) : option string :=
  if String.eqb s "* * * * *" then None else Some "Too few fields"%string.

(** No patch module is installed: every [require] throws, and the throw
    is swallowed. *)
Definition example_patch (v : string) (t : Task) (data : JsonLiteral) : Task :=
  t.

Definition example_headers : gmap string string :=
  {[ "content-type"%string := "text/plain"%string ]}.

(** An entity in the middle of its life: absolute [cron], one content
    seen, a callback and one patch configured. *)
Definition t2_props : Props :=
  mkProps (Some "t2"%string) (Some ACTIVE) (Some "http://example/feed"%string)
    (Some "http://example/hook"%string) (Some 5)
    (Some (makeHash example_digest example_headers "hello"))
    None None (PArr ["p"%string]) (CNum 1700000030) None
    (Some 1700000000) (Some 1700000010).

Definition t2 : Task :=
  mkTask t2_props false (Counts.mk 4 1 3)
    (Last.mk (Some true) (Some 1700000010)) None.

(** The same entity without a callback. *)
Definition t3 : Task :=
  mkTask
    (mkProps (Some "t3"%string) (Some ACTIVE)
       (Some "http://example/feed"%string) None None None None None
       (PArr ["p"%string]) CUndef None (Some 1700000000) (Some 1700000010))
    false (Counts.mk 4 1 3) (Last.mk (Some true) (Some 1700000010)) None.

Definition world_of (t : Task) : World := mkWorld t [] [] 0.

(** [Array.isArray(patches) && patches.length] *)
Definition has_patches (p : Patches) : bool :=
  match p with
  | PArr (_ :: _) => true
  | _ => false
  end.

(** The world after the first three statements of [succ]: the new hash is
    stored, [updated] is the clock reading, one ['change'] is emitted. *)
Definition after_change (Date_now : nat -> Z) (hash' : string) (w : World)
    : World :=
  mkWorld
    (with_props
       (fun p => set_updated (Some (epoch_at Date_now (ticks w)))
                   (set_hash (Some hash') p))
       (self w))
    (emitted w ++ ["change"%string]) (outbox w) (S (ticks w)).

(** The world after [_patch] has applied the transforms [vs] to [data]. *)
Definition after_patches (Date_now : nat -> Z) {Json : Type}
    (patch_module : string -> Task -> Json -> Task) (data : Json)
    (vs : list string) (w : World) : World :=
  mkWorld
    (with_props (set_updated (Some (epoch_at Date_now (ticks w))))
       (fold_left (fun t v => patch_module v t data) vs (self w)))
    (emitted w ++ ["change"%string]) (outbox w) (S (ticks w)).

(** The finalization step has run once between [w] and [w']: the flag is
    down, [_last] holds the outcome and a clock reading, one run is
    counted, and one of [succ] and [err] is counted with it. *)
Definition finalized (Date_now : nat -> Z) (s : bool) (w w' : World) : Prop :=
  _running (self w') = false /\
  _last (self w') = Last.mk (Some s) (Some (epoch_at Date_now (pred (ticks w')))) /\
  Counts.run (_counts (self w')) = Counts.run (_counts (self w)) + 1 /\
  Counts.succ (_counts (self w')) =
    Counts.succ (_counts (self w)) + (if s then 1 else 0) /\
  Counts.err (_counts (self w')) =
    Counts.err (_counts (self w)) + (if s then 0 else 1).

(** ** The rest of the entity *)

(** [String(v)] of an optional string: an absent value prints as
    ["undefined"]. *)
Definition js_to_string (v : option string) : string :=
  default "undefined"%string v.

(** [toString] *)
Definition toString (t : Task) : string :=
  ("[object Task('" ++ js_to_string (name (props t)) ++ "')]")%string.

(** ** The entity over time

    The operations a holder of the entity and its collaborators can
    perform, one per turn of the event loop: the public methods, the timer
    firing, and the completion of a queued request.  [OpComplete i r]
    takes the [i]-th queued request off [outbox] and runs its completion
    function on the response [r]; it does nothing when there is no such
    request.  [OpSched] and [OpActive] carry the answer of the timer
    library to the [start()] they may call; [OpFire] does nothing unless
    the timer is running.  A turn that ends in a throw keeps the
    mutations made before the throw, and later turns go on from there. *)
Inductive Op : Type :=
| OpSched (ahead : bool)
| OpActive (ahead : bool)
| OpStop
| OpExpire
| OpTest (cb : bool)
| OpRun
| OpFire
| OpComplete (i : nat) (r : Response).

Definition take_request (i : nat) (w : World) : option (Cont * World) :=
  match outbox w !! i with
  | Some (_, k) =>
      Some (k, mkWorld (self w) (emitted w) (delete i (outbox w)) (ticks w))
  | None => None
  end.

Section Driver.
Variable Date_now : nat -> Z.
Variable sha256_hex : string -> string.
Variable Json : Type.
Variable JSON_parse : string -> option Json.
Variable patch_module : string -> Task -> Json -> Task.
Variable CronJob_rejects : string -> option string.

Definition exec (o : Op) (w : World) : World :=
  match o with
  | OpSched ahead => snd (sched CronJob_rejects ahead w)
  | OpActive ahead => snd (active Date_now ahead w)
  | OpStop => snd (stop Date_now w)
  | OpExpire => snd (expire Date_now w)
  | OpTest cb => snd (test cb w)
  | OpRun => snd (run None w)
  | OpFire => snd (fire Date_now w)
  | OpComplete i r =>
      match take_request i w with
      | Some (k, w') =>
          snd (deliver Date_now sha256_hex Json JSON_parse patch_module k r w')
      | None => w
      end
  end.

Definition exec_all (ops : list Op) (w : World) : World :=
  fold_left (fun w o => exec o w) ops w.
End Driver.

(** The completion functions that belong to [run]. *)
Definition is_run_cont (e : Request * Cont) : bool :=
  match snd e with
  | KTest _ => false
  | KRun | KRunCallback _ _ _ => true
  end.

(** The number of queued requests that belong to [run]. *)
Definition pending_runs (w : World) : nat :=
  length (filter (fun e => is_run_cont e = true) (outbox w)).

(** Single flight: at most one request of [run] is queued, and none
    when [_running] is down. *)
Definition single_flight (w : World) : Prop :=
  (pending_runs w <= (if _running (self w) then 1 else 0))%nat.

(** Run statistics that add up: [run = succ + err] with no negative
    counter, and [_last] is the initial one exactly as long as no run has
    been counted. *)
Definition statistics_add_up (t : Task) : Prop :=
  0 <= Counts.succ (_counts t) /\
  0 <= Counts.err (_counts t) /\
  Counts.run (_counts t) = Counts.succ (_counts t) + Counts.err (_counts t) /\
  (Counts.run (_counts t) = 0 <-> _last t = Last.null) /\
  (_last t = Last.null \/
   exists (s : bool) (d : Z), _last t = Last.mk (Some s) (Some d)).

(** The configuration keys that only the constructor writes: all but
    [state], [hash] and [updated]. *)
Definition same_config (p q : Props) : Prop :=
  name p = name q /\ url p = url q /\ callback p = callback q /\
  timeout p = timeout q /\ urlTemplate p = urlTemplate q /\
  callbackTemplate p = callbackTemplate q /\ patches p = patches q /\
  cron p = cron q /\ expireAt p = expireAt q /\ created p = created q.

(** [state] is one of the three constants. *)
Definition state_in_enum (p : Props) : Prop :=
  state p = Some ACTIVE \/ state p = Some STOPPED \/ state p = Some EXPIRED.

(** Only an active entity holds a running timer. *)
Definition armed_only_when_active (t : Task) : Prop :=
  forall j : CronJob,
    _cronJob t = Some j -> running j = true -> state (props t) = Some ACTIVE.

(** The error [sched] ends with for given fields: the message of the
    library when [cron] is a non-empty pattern that it cannot parse. *)
Definition sched_error (CronJob_rejects : string -> option string)
    (p : Props) : option string :=
  match cron p with
  | CStr s => if String.eqb s "" then None else CronJob_rejects s
  | _ => None
  end.

(** The timer [sched] leaves for given fields: none when [cron] is
    absent, zero, empty or a pattern the library cannot parse; otherwise
    a one-shot job for a number and a recurring one for a pattern, running
    when the state is ACTIVE and, for a one-shot job, its date is still
    ahead. *)
Definition timer_for (CronJob_rejects : string -> option string)
    (ahead : bool) (p : Props) : option CronJob :=
  match cron p with
  | CNum c =>
      if c =? 0 then None
      else Some (mkCronJob (AtDate (c * 1000)) true
                   (strict_eq_num (state p) ACTIVE && ahead))
  | CStr s =>
      if String.eqb s "" then None
      else
        match CronJob_rejects s with
        | Some _ => None
        | None =>
            Some (mkCronJob (AtPattern s) false
                    (strict_eq_num (state p) ACTIVE))
        end
  | CUndef => None
  end.

(** A clock in the present, for the examples: every reading is
    1,700,000,000 seconds after the epoch. *)
Definition clock_2023 (k : nat) : Z := 1700000000000.

(** [{name: 't4', url: 'http://example', cron: 30, expireAt: 60}] *)
Definition example_t4 : Obj :=
  mkObj (mkProps (Some "t4"%string) None (Some "http://example"%string)
           None None None None None PUndef (CNum 30) (Some 60) None None)
    None None None.

(** An entity with a callback and no patches that has seen nothing yet. *)
Definition t5 : Task :=
  mkTask
    (mkProps (Some "t5"%string) (Some ACTIVE)
       (Some "http://example/feed"%string) (Some "http://example/hook"%string)
       None None None None PUndef CUndef None (Some 1700000000)
       (Some 1700000000))
    false Counts.zero Last.null None.

(** The content of [example_headers] and ["hello"] with the boundary
    between content type and body one character to the left. *)
Definition shifted_headers : gmap string string :=
  {[ "content-type"%string := "text/plai"%string;
     "etag"%string := "2"%string ]}.

(** A day in the life of an entity: it is scheduled, run by hand twice,
    its timer fires, the GET completes, it is stopped and probed, and
    the probe completes. *)
Definition example_ops : list Op :=
  [OpSched true; OpRun; OpRun; OpFire;
   OpComplete 0 (Reply 200 example_headers "hello");
   OpStop; OpTest true; OpComplete 0 (NetErr "ECONNRESET"); OpActive false].

(** The entity of the example with a running timer of every minute,
    after its [cron] has been replaced by a text that is no pattern. *)
Definition t6 : Task :=
  with_props (set_cron (CStr "every minute"))
    (set_cronJob (Some (mkCronJob (AtPattern "* * * * *") false true))
       t1_constructed).

(** The one-shot timer of the example fires, its run completes, and the
    holder stops the entity. *)
Definition one_shot_ops : list Op :=
  [OpSched true; OpFire; OpComplete 0 (Reply 200 example_headers "hello");
   OpStop].

(** The world once the library has done its part of a firing of the
    running timer [j]. *)
Definition fired (j : CronJob) (w : World) : World :=
  mkWorld (set_cronJob (Some (CronJob_fired j)) (self w)) (emitted w)
    (outbox w) (ticks w).

(** The world after a [run] that started. *)
Definition started (w : World) : World :=
  mkWorld (set_running true (self w)) (emitted w)
    (outbox w ++ [(rsrc (self w), KRun)]) (ticks w).

(** What a state transition leaves alone: every configuration key but
    [state] and [updated], the run statistics, the flag, and the queue of
    requests. *)
Definition transition_frame (w w' : World) : Prop :=
  same_config (props (self w')) (props (self w)) /\
  hash (props (self w')) = hash (props (self w)) /\
  _running (self w') = _running (self w) /\
  _counts (self w') = _counts (self w) /\
  _last (self w') = _last (self w) /\
  outbox w' = outbox w.

Section Outcomes.
Variable Date_now : nat -> Z.
Variable Json : Type.
Variable patch_module : string -> Task -> Json -> Task.

(** The worlds a completion function of [run] can leave behind from [w]:
    finalized as a failure or as no change, the POST queued, the change
    recorded and finalized (without and with patches), or the change
    recorded and the turn ended by the throw of [JSON.parse]. *)
Inductive run_outcome (w : World) : World -> Prop :=
| out_failed : run_outcome w (snd (upd Date_now false w))
| out_nochange : run_outcome w (snd (upd Date_now true w))
| out_forwarded (rq : Request) (k : Cont) :
    is_run_cont (rq, k) = true ->
    run_outcome w
      (mkWorld (self w) (emitted w) (outbox w ++ [(rq, k)]) (ticks w))
| out_changed (hash' : string) :
    run_outcome w (snd (upd Date_now true (after_change Date_now hash' w)))
| out_patched (hash' : string) (data : Json) (vs : list string) :
    run_outcome w
      (snd (upd Date_now true
              (after_patches Date_now patch_module data vs
                 (after_change Date_now hash' w))))
| out_thrown (hash' : string) :
    run_outcome w (after_change Date_now hash' w).
End Outcomes.

(** The trace [l'] extends [l] by ['change'] events only. *)
Definition extends_by_changes (l l' : list string) : Prop :=
  exists n : nat, l' = l ++ replicate n "change"%string.

(** An entity that is stuck: the flag is up and no request of [run] is
    queued that could bring it down. *)
Definition stuck (w : World) : Prop :=
  _running (self w) = true /\ pending_runs w = 0%nat.

Lemma strict_eq_num_true (v : option Z) (n : Z) :
  strict_eq_num v n = true <-> v = Some n.
Proof.
  destruct v as [m|]; simpl; [|split; discriminate].
  rewrite Z.eqb_eq. split; congruence.
Qed.

Lemma strict_eq_num_false (v : option Z) (n : Z) :
  strict_eq_num v n = false <-> v <> Some n.
Proof.
  rewrite <- strict_eq_num_true. destruct (strict_eq_num v n); split; congruence.
Qed.

Lemma strict_eq_str_true (v : option string) (s : string) :
  strict_eq_str v s = true <-> v = Some s.
Proof.
  destruct v as [s'|]; simpl; [|split; discriminate].
  rewrite String.eqb_eq. split; congruence.
Qed.

Lemma strict_eq_str_false (v : option string) (s : string) :
  strict_eq_str v s = false <-> v <> Some s.
Proof.
  rewrite <- strict_eq_str_true. destruct (strict_eq_str v s); split; congruence.
Qed.

(** Unfolding of the operations of the entity down to the world. *)
Create HintDb task_ops.
#[global] Hint Unfold run run_response run_callback_response succ rerr
  nochange upd _patch _transit active stop expire test test_response
  sched fire onTick request emit modify_self get_self throw _Now
  mbind mret M_bind M_ret : task_ops.

Ltac step_world := autounfold with task_ops; simpl.

Section Properties.
Variable Date_now : nat -> Z.
Variable sha256_hex : string -> string.
Variable Json : Type.
Variable JSON_parse : string -> option Json.
Variable patch_module : string -> Task -> Json -> Task.

Local Abbreviation run_response :=
  (run_response Date_now sha256_hex Json JSON_parse patch_module).
Local Abbreviation run_callback_response :=
  (run_callback_response Date_now Json JSON_parse patch_module).
Local Abbreviation test_response := (test_response sha256_hex).
Local Abbreviation makeHash := (makeHash sha256_hex).
Local Abbreviation epoch_at := (epoch_at Date_now).

(** *** Single flight *)

(** C4: when [_running] is true, [run] returns [false] at once and
    leaves the whole world as it was: no field of the entity changes (in
    particular [_counts] and [_last]), no request is issued, nothing is
    emitted and the clock is not read. *)
Theorem run_rejected_while_running (cb : option (M unit)) (w : World) :
  _running (self w) = true ->
  run cb w = (Ok (Some false), w).
Proof.
  intros Hrun. step_world. rewrite Hrun. reflexivity.
Qed.

(** A run that starts: the flag is raised and the GET is queued. *)
Lemma run_starts (cb : option (M unit)) (w : World) :
  _running (self w) = false ->
  run cb w =
    (Ok None,
     mkWorld (set_running true (self w)) (emitted w)
       (outbox w ++ [(rsrc (self w), KRun)]) (ticks w)).
Proof.
  intros Hrun. step_world. rewrite Hrun. reflexivity.
Qed.

(** The finalization step, in one piece. *)
Lemma upd_eq (s : bool) (w : World) :
  upd Date_now s w =
    (Ok tt,
     mkWorld
       (mkTask (props (self w)) false
          (Counts.mk (Counts.run (_counts (self w)) + 1)
             (if s then Counts.err (_counts (self w))
              else Counts.err (_counts (self w)) + 1)
             (if s then Counts.succ (_counts (self w)) + 1
              else Counts.succ (_counts (self w))))
          (Last.mk (Some s) (Some (epoch_at (ticks w))))
          (_cronJob (self w)))
       (emitted w) (outbox w) (S (ticks w))).
Proof. destruct s; reflexivity. Qed.

(** *** No change *)

(** C6: a run whose fetched content hashes to the stored hash leaves
    every configuration field (so [hash] and [updated]) as it was, emits
    nothing, and counts as one run and one success with
    [_last.succ = true]. *)
Theorem run_same_hash_counts_without_change (cb : option (M unit))
    (w : World) (headers : gmap string string) (body : string) :
  _running (self w) = false ->
  hash (props (self w)) = Some (makeHash headers body) ->
  exists w1 w2 : World,
    run cb w = (Ok None, w1) /\
    run_response (Reply 200 headers body) w1 = (Ok tt, w2) /\
    props (self w2) = props (self w) /\
    emitted w2 = emitted w /\
    Counts.run (_counts (self w2)) = Counts.run (_counts (self w)) + 1 /\
    Counts.succ (_counts (self w2)) = Counts.succ (_counts (self w)) + 1 /\
    Counts.err (_counts (self w2)) = Counts.err (_counts (self w)) /\
    _last (self w2) = Last.mk (Some true) (Some (epoch_at (ticks w))) /\
    _running (self w2) = false.
Proof.
  intros Hrun Hhash. eexists _, _. split; [apply run_starts, Hrun|].
  split.
  - unfold run_response. cbn [Z.eqb negb Pos.eqb].
    unfold mbind, M_bind, get_self. cbn [self props set_running].
    apply strict_eq_str_true in Hhash. rewrite Hhash.
    unfold nochange. apply upd_eq.
  - simpl. repeat split.
Qed.

(** *** Callback delivery failure *)

(** The GET completion on changed content with a callback configured:
    nothing is touched, the POST is queued. *)
Lemma run_response_forwards (w : World) (headers : gmap string string)
    (body : string) :
  hash (props (self w)) <> Some (makeHash headers body) ->
  truthy_str (callback (props (self w))) = true ->
  run_response (Reply 200 headers body) w =
    (Ok tt,
     mkWorld (self w) (emitted w)
       (outbox w ++
          [(callbk (self w) headers body,
            KRunCallback headers body (makeHash headers body))])
       (ticks w)).
Proof.
  intros Hhash Hcb. apply strict_eq_str_false in Hhash.
  unfold run_response. cbn [Z.eqb negb Pos.eqb].
  unfold mbind, M_bind, get_self. rewrite Hhash, Hcb. reflexivity.
Qed.

Lemma run_callback_response_failed (w : World)
    (headers : gmap string string) (body hash' : string) (r_ : Response) :
  failed r_ = true ->
  run_callback_response headers body hash' r_ w = upd Date_now false w.
Proof.
  intros Hf. destruct r_ as [e|st h b]; [reflexivity|].
  simpl in Hf. unfold run_callback_response. rewrite Hf.
  reflexivity.
Qed.

(** C5: on changed content with a callback configured, a POST that
    fails (transport error or status other than 200) leaves every
    configuration field ([hash] and [updated] among them) as it was
    before the run, emits nothing, counts one run and one error, sets
    [_last.succ = false]; and a following run that sees the same
    content queues the same POST again. *)
Theorem callback_failure_keeps_hash_and_retries (cb cb' : option (M unit))
    (w : World) (headers : gmap string string) (body : string)
    (r_ : Response) :
  _running (self w) = false ->
  hash (props (self w)) <> Some (makeHash headers body) ->
  truthy_str (callback (props (self w))) = true ->
  failed r_ = true ->
  let post :=
    (callbk (self w) headers body,
     KRunCallback headers body (makeHash headers body)) in
  exists w1 w2 w3 w4 w5 : World,
    run cb w = (Ok None, w1) /\
    run_response (Reply 200 headers body) w1 = (Ok tt, w2) /\
    outbox w2 = outbox w1 ++ [post] /\
    run_callback_response headers body (makeHash headers body) r_ w2
      = (Ok tt, w3) /\
    props (self w3) = props (self w) /\
    emitted w3 = emitted w /\
    Counts.run (_counts (self w3)) = Counts.run (_counts (self w)) + 1 /\
    Counts.err (_counts (self w3)) = Counts.err (_counts (self w)) + 1 /\
    Counts.succ (_counts (self w3)) = Counts.succ (_counts (self w)) /\
    _last (self w3) = Last.mk (Some false) (Some (epoch_at (ticks w))) /\
    _running (self w3) = false /\
    run cb' w3 = (Ok None, w4) /\
    run_response (Reply 200 headers body) w4 = (Ok tt, w5) /\
    outbox w5 = outbox w4 ++ [post] /\
    emitted w5 = emitted w.
Proof.
  intros Hrun Hhash Hcb Hf post. subst post.
  eexists _, _, _, _, _.
  split; [apply run_starts, Hrun|].
  split; [apply run_response_forwards; assumption|].
  split; [reflexivity|].
  split; [rewrite run_callback_response_failed by assumption; apply upd_eq|].
  do 7 (split; [reflexivity|]).
  split; [apply run_starts; reflexivity|].
  split; [apply run_response_forwards; assumption|].
  split; reflexivity.
Qed.

(** *** State transitions *)

Lemma _transit_eq (newState : Z) (w : World) :
  _transit Date_now newState w =
    (Ok tt,
     mkWorld
       (with_props
          (fun p => set_updated (Some (epoch_at (ticks w)))
                      (set_state (Some newState) p))
          (self w))
       (emitted w ++ ["change"%string]) (outbox w) (S (ticks w))).
Proof. reflexivity. Qed.

Local Abbreviation after_transit := (after_transit Date_now).

Ltac transition_changes Hst :=
  apply strict_eq_num_false in Hst; step_world; rewrite Hst; simpl;
  match goal with
  | |- context [_cronJob (self ?w)] =>
      unfold after_transit;
      destruct (self w) as [p r c l [[ct o []]|]]; reflexivity
  end.

Lemma active_changes (ahead : bool) (w : World) :
  state (props (self w)) <> Some ACTIVE ->
  active Date_now ahead w = (Ok tt, after_transit (Some ahead) ACTIVE w).
Proof. intros Hst. transition_changes Hst. Qed.

Lemma stop_changes (w : World) :
  state (props (self w)) <> Some STOPPED ->
  stop Date_now w = (Ok tt, after_transit None STOPPED w).
Proof. intros Hst. transition_changes Hst. Qed.

Lemma expire_changes (w : World) :
  state (props (self w)) <> Some EXPIRED ->
  expire Date_now w = (Ok tt, after_transit None EXPIRED w).
Proof. intros Hst. transition_changes Hst. Qed.

Ltac transition_same Hst :=
  apply strict_eq_num_true in Hst; step_world; rewrite Hst; reflexivity.

Lemma active_same (ahead : bool) (w : World) :
  state (props (self w)) = Some ACTIVE ->
  active Date_now ahead w = (Ok tt, w).
Proof. intros Hst. transition_same Hst. Qed.

Lemma stop_same (w : World) :
  state (props (self w)) = Some STOPPED -> stop Date_now w = (Ok tt, w).
Proof. intros Hst. transition_same Hst. Qed.

Lemma expire_same (w : World) :
  state (props (self w)) = Some EXPIRED -> expire Date_now w = (Ok tt, w).
Proof. intros Hst. transition_same Hst. Qed.

Lemma transition_spec_intro (op : M unit) (start : option bool)
    (target : Z) :
  (forall w, state (props (self w)) = Some target -> op w = (Ok tt, w)) ->
  (forall w, state (props (self w)) <> Some target ->
             op w = (Ok tt, after_transit start target w)) ->
  transition_spec Date_now op target.
Proof.
  intros Hsame Hchg w. split; [apply Hsame|].
  intros Hst. exists (after_transit start target w).
  split; [apply Hchg, Hst|].
  repeat (split; [reflexivity|]).
  apply Hsame. reflexivity.
Qed.

(** C9: [active], [stop] and [expire] are idempotent.  Called on an
    entity already in the target state, each leaves the world as it was
    (no mutation, [updated] untouched, nothing emitted); called on an
    entity in another state, each sets [state] to its target, sets
    [updated] to the clock reading, emits exactly one ['change'], and a
    second call right after it changes nothing more; for [active],
    whatever the timer library answers to [start()]. *)
Theorem transitions_idempotent :
  (forall ahead : bool,
     transition_spec Date_now (active Date_now ahead) ACTIVE) /\
  transition_spec Date_now (stop Date_now) STOPPED /\
  transition_spec Date_now (expire Date_now) EXPIRED.
Proof.
  split; [|split].
  - intros ahead.
    exact (transition_spec_intro _ (Some ahead) _ (active_same ahead)
             (active_changes ahead)).
  - exact (transition_spec_intro _ None _ stop_same stop_changes).
  - exact (transition_spec_intro _ None _ expire_same expire_changes).
Qed.

(** *** The prober *)

(** C10: with no stored hash, a 200 probe response is reported to [cb]
    as modified, whatever the content; the probe writes nothing. *)
Theorem test_without_hash_reports_modified (w : World)
    (headers : gmap string string) (body : string) :
  hash (props (self w)) = None ->
  test_response true (Reply 200 headers body) w
    = (Ok (Some (CbOk headers body true)), w).
Proof.
  intros Hhash. step_world. rewrite Hhash. reflexivity.
Qed.

(** *** The success path *)

Local Abbreviation succ :=
  (succ Date_now Json JSON_parse patch_module).
Local Abbreviation after_change := (after_change Date_now).
Local Abbreviation after_patches := (after_patches Date_now patch_module).
Local Abbreviation finalized := (finalized Date_now).

Lemma forEach_patches (data : Json) (vs : list string) (w : World) :
  forEach (fun v => modify_self (fun t => patch_module v t data)) vs w =
    (Ok tt,
     mkWorld (fold_left (fun t v => patch_module v t data) vs (self w))
       (emitted w) (outbox w) (ticks w)).
Proof.
  revert w. induction vs as [|v vs IH]; intros w.
  - destruct w; reflexivity.
  - cbn [forEach fold_left]. unfold mbind, M_bind, modify_self at 1.
    rewrite IH. reflexivity.
Qed.

Lemma succ_without_patches (w : World) (headers : gmap string string)
    (body hash' : string) :
  has_patches (patches (props (self w))) = false ->
  succ headers body hash' w = upd Date_now true (after_change hash' w).
Proof.
  intros Hp.
  unfold succ, _patch, mbind, M_bind, modify_self, _Now, emit, get_self.
  cbn [self props with_props set_updated set_hash patches ticks emitted outbox].
  destruct (patches (props (self w))) as [|v|[|v vs]];
    try discriminate; reflexivity.
Qed.

Lemma succ_throws (w : World) (headers : gmap string string)
    (body hash' : string) (v : string) (vs : list string) :
  patches (props (self w)) = PArr (v :: vs) ->
  JSON_parse body = None ->
  succ headers body hash' w = (Throw SyntaxError, after_change hash' w).
Proof.
  intros Hp Hj.
  unfold succ, _patch, mbind, M_bind, modify_self, _Now, emit, get_self, throw.
  cbn [self props with_props set_updated set_hash patches ticks emitted outbox].
  rewrite Hp, Hj. reflexivity.
Qed.

Lemma succ_with_patches (w : World) (headers : gmap string string)
    (body hash' : string) (v : string) (vs : list string) (data : Json) :
  patches (props (self w)) = PArr (v :: vs) ->
  JSON_parse body = Some data ->
  succ headers body hash' w =
    upd Date_now true
      (after_patches data (v :: vs) (after_change hash' w)).
Proof.
  intros Hp Hj.
  unfold succ, _patch.
  unfold mbind, M_bind, modify_self at 1 2, _Now at 1, emit at 1, get_self.
  cbn [self props with_props set_updated set_hash patches ticks emitted outbox].
  rewrite Hp, Hj. unfold mbind, M_bind. rewrite forEach_patches.
  reflexivity.
Qed.

Lemma run_response_failed (w : World) (r : Response) :
  failed r = true -> run_response r w = upd Date_now false w.
Proof.
  intros Hf. destruct r as [e|st h b]; [reflexivity|].
  simpl in Hf. unfold run_response. rewrite Hf. reflexivity.
Qed.

Lemma run_response_same_hash (w : World) (headers : gmap string string)
    (body : string) :
  hash (props (self w)) = Some (makeHash headers body) ->
  run_response (Reply 200 headers body) w = upd Date_now true w.
Proof.
  intros Hhash. apply strict_eq_str_true in Hhash.
  unfold run_response. cbn [Z.eqb negb Pos.eqb].
  unfold mbind, M_bind, get_self. rewrite Hhash. reflexivity.
Qed.

Lemma run_response_changed (w : World) (headers : gmap string string)
    (body : string) :
  hash (props (self w)) <> Some (makeHash headers body) ->
  truthy_str (callback (props (self w))) = false ->
  run_response (Reply 200 headers body) w
    = succ headers body (makeHash headers body) w.
Proof.
  intros Hhash Hcb. apply strict_eq_str_false in Hhash.
  unfold run_response. cbn [Z.eqb negb Pos.eqb].
  unfold mbind, M_bind, get_self. rewrite Hhash, Hcb. reflexivity.
Qed.

Lemma run_callback_response_ok (w : World) (headers : gmap string string)
    (body hash' : string) (r_ : Response) :
  failed r_ = false ->
  run_callback_response headers body hash' r_ w = succ headers body hash' w.
Proof.
  intros Hf. destruct r_ as [e|st h b]; [discriminate|].
  simpl in Hf. unfold run_callback_response. rewrite Hf. reflexivity.
Qed.

Lemma upd_finalized (s : bool) (w0 w : World) :
  _counts (self w) = _counts (self w0) ->
  exists w' : World, upd Date_now s w = (Ok tt, w') /\ finalized s w0 w' /\
    props (self w') = props (self w) /\ emitted w' = emitted w.
Proof.
  intros Hc. eexists. split; [apply upd_eq|]. unfold finalized. simpl.
  rewrite Hc. destruct s; repeat split; lia.
Qed.

(** *** Body that is not JSON, with patches configured *)

(** C2 at its failing input: the entity has patches and no callback,
    the content is new and the body is not JSON.  [JSON.parse] throws
    inside [_patch], the completion function ends there, and the
    finalization step is never reached: [_running] stays true,
    [_counts] and [_last] are as before the run, and every later [run]
    is rejected. *)
Theorem run_not_finalized_when_body_not_json (cb : option (M unit))
    (w : World) (headers : gmap string string) (body : string)
    (v : string) (vs : list string) :
  _running (self w) = false ->
  hash (props (self w)) <> Some (makeHash headers body) ->
  truthy_str (callback (props (self w))) = false ->
  patches (props (self w)) = PArr (v :: vs) ->
  JSON_parse body = None ->
  exists w1 w2 : World,
    run cb w = (Ok None, w1) /\
    run_response (Reply 200 headers body) w1 = (Throw SyntaxError, w2) /\
    _running (self w2) = true /\
    _counts (self w2) = _counts (self w) /\
    _last (self w2) = _last (self w) /\
    forall cb' : option (M unit), run cb' w2 = (Ok (Some false), w2).
Proof.
  intros Hrun Hhash Hcb Hp Hj. eexists _, _.
  split; [apply run_starts, Hrun|].
  split.
  - rewrite run_response_changed by assumption.
    eapply succ_throws; [exact Hp|exact Hj].
  - do 3 (split; [reflexivity|]). intros cb'. reflexivity.
Qed.

(** C7 at its failing input: the entity has patches and no callback,
    the content is new and the body is not JSON.  The new hash is
    stored, [updated] is bumped and one ['change'] is emitted; then
    [JSON.parse] throws inside [_patch]: there is no second ['change']
    and [_counts.succ] is not incremented. *)
Theorem change_not_counted_when_body_not_json (cb : option (M unit))
    (w : World) (headers : gmap string string) (body : string)
    (v : string) (vs : list string) :
  _running (self w) = false ->
  hash (props (self w)) <> Some (makeHash headers body) ->
  truthy_str (callback (props (self w))) = false ->
  patches (props (self w)) = PArr (v :: vs) ->
  JSON_parse body = None ->
  exists w1 w2 : World,
    run cb w = (Ok None, w1) /\
    run_response (Reply 200 headers body) w1 = (Throw SyntaxError, w2) /\
    hash (props (self w2)) = Some (makeHash headers body) /\
    updated (props (self w2)) = Some (epoch_at (ticks w)) /\
    emitted w2 = emitted w ++ ["change"%string] /\
    Counts.succ (_counts (self w2)) = Counts.succ (_counts (self w)) /\
    Counts.run (_counts (self w2)) = Counts.run (_counts (self w)).
Proof.
  intros Hrun Hhash Hcb Hp Hj. eexists _, _.
  split; [apply run_starts, Hrun|].
  split.
  - rewrite run_response_changed by assumption.
    eapply succ_throws; [exact Hp|exact Hj].
  - repeat split.
Qed.

(** *** The branches that do reach the finalization step *)

(** X14: without patches and without a callback, every outcome of the
    GET (transport error, any status, same or new content) finalizes a
    started run once; [s] is the outcome recorded. *)
Lemma run_finalized_without_patches (cb : option (M unit)) (w : World)
    (r : Response) :
  _running (self w) = false ->
  has_patches (patches (props (self w))) = false ->
  truthy_str (callback (props (self w))) = false ->
  exists (w1 w2 : World) (s : bool),
    run cb w = (Ok None, w1) /\
    run_response r w1 = (Ok tt, w2) /\
    finalized s w w2.
Proof.
  intros Hrun Hp Hcb.
  pose proof (run_starts cb w Hrun) as Hstart.
  set (w1 := mkWorld (set_running true (self w)) (emitted w)
               (outbox w ++ [(rsrc (self w), KRun)]) (ticks w)) in *.
  destruct (failed r) eqn:Hf.
  - destruct (upd_finalized false w w1 eq_refl) as (w2 & Hupd & Hfin & _).
    exists w1, w2, false. rewrite run_response_failed by exact Hf. auto.
  - destruct r as [e|st headers body]; [discriminate|].
    simpl in Hf. apply negb_false_iff, Z.eqb_eq in Hf. subst st.
    destruct (decide (hash (props (self w)) = Some (makeHash headers body)))
      as [Hh|Hh].
    + destruct (upd_finalized true w w1 eq_refl) as (w2 & Hupd & Hfin & _).
      exists w1, w2, true. rewrite run_response_same_hash by exact Hh. auto.
    + destruct (upd_finalized true w
                  (after_change (makeHash headers body) w1) eq_refl)
        as (w2 & Hupd & Hfin & _).
      exists w1, w2, true.
      rewrite run_response_changed by assumption.
      rewrite succ_without_patches by exact Hp. auto.
Qed.

(** With a callback and no patches, the run is finalized once when the
    POST completes, whatever its response. *)
Lemma run_finalized_with_callback (cb : option (M unit)) (w : World)
    (headers : gmap string string) (body : string) (r_ : Response) :
  _running (self w) = false ->
  has_patches (patches (props (self w))) = false ->
  hash (props (self w)) <> Some (makeHash headers body) ->
  truthy_str (callback (props (self w))) = true ->
  exists w1 w2 w3 : World,
    run cb w = (Ok None, w1) /\
    run_response (Reply 200 headers body) w1 = (Ok tt, w2) /\
    _running (self w2) = true /\
    _counts (self w2) = _counts (self w) /\
    run_callback_response headers body (makeHash headers body) r_ w2
      = (Ok tt, w3) /\
    finalized (negb (failed r_)) w w3.
Proof.
  intros Hrun Hp Hhash Hcb.
  pose proof (run_starts cb w Hrun) as Hstart.
  set (w1 := mkWorld (set_running true (self w)) (emitted w)
               (outbox w ++ [(rsrc (self w), KRun)]) (ticks w)) in *.
  pose proof (run_response_forwards w1 headers body Hhash Hcb) as Hfwd.
  set (w2 := mkWorld (self w1) (emitted w1) _ (ticks w1)) in *.
  destruct (failed r_) eqn:Hf.
  - destruct (upd_finalized false w w2 eq_refl) as (w3 & Hupd & Hfin & _).
    exists w1, w2, w3.
    rewrite run_callback_response_failed by exact Hf. auto 10.
  - destruct (upd_finalized true w
                (after_change (makeHash headers body) w2) eq_refl)
      as (w3 & Hupd & Hfin & _).
    exists w1, w2, w3.
    rewrite run_callback_response_ok by exact Hf.
    rewrite succ_without_patches by exact Hp. auto 10.
Qed.

Lemma fold_patches_keep {A : Type} (f : Task -> A) :
  (forall v t data, f (patch_module v t data) = f t) ->
  forall (data : Json) (vs : list string) (t : Task),
    f (fold_left (fun t v => patch_module v t data) vs t) = f t.
Proof.
  intros Hkeep data vs. induction vs as [|v vs IH]; intros t; [reflexivity|].
  cbn [fold_left]. rewrite IH. apply Hkeep.
Qed.

(** X15: with patches, a body that parses, and transforms that leave
    [_counts] alone, the run is finalized once as well, as a success. *)
Lemma run_finalized_with_patches (cb : option (M unit)) (w : World)
    (headers : gmap string string) (body : string)
    (v : string) (vs : list string) (data : Json) :
  (forall v t data, _counts (patch_module v t data) = _counts t) ->
  _running (self w) = false ->
  hash (props (self w)) <> Some (makeHash headers body) ->
  truthy_str (callback (props (self w))) = false ->
  patches (props (self w)) = PArr (v :: vs) ->
  JSON_parse body = Some data ->
  exists w1 w2 : World,
    run cb w = (Ok None, w1) /\
    run_response (Reply 200 headers body) w1 = (Ok tt, w2) /\
    finalized true w w2.
Proof.
  intros Hkeep Hrun Hhash Hcb Hp Hj.
  pose proof (run_starts cb w Hrun) as Hstart.
  set (w1 := mkWorld (set_running true (self w)) (emitted w)
               (outbox w ++ [(rsrc (self w), KRun)]) (ticks w)) in *.
  destruct (upd_finalized true w
              (after_patches data (v :: vs)
                 (after_change (makeHash headers body) w1)))
    as (w2 & Hupd & Hfin & _).
  { unfold after_patches. cbn [self with_props _counts].
    rewrite (fold_patches_keep _counts Hkeep). reflexivity. }
  exists w1, w2. rewrite run_response_changed by assumption.
  rewrite (succ_with_patches w1 headers body _ v vs data Hp Hj). auto.
Qed.

(** *** A change with no callback *)

(** C7, for an entity without patches: the new hash is stored,
    [updated] is the clock reading, one success is counted and exactly
    one ['change'] is emitted. *)
Lemma change_recorded_without_patches (cb : option (M unit)) (w : World)
    (headers : gmap string string) (body : string) :
  _running (self w) = false ->
  hash (props (self w)) <> Some (makeHash headers body) ->
  truthy_str (callback (props (self w))) = false ->
  has_patches (patches (props (self w))) = false ->
  exists w1 w2 : World,
    run cb w = (Ok None, w1) /\
    run_response (Reply 200 headers body) w1 = (Ok tt, w2) /\
    hash (props (self w2)) = Some (makeHash headers body) /\
    updated (props (self w2)) = Some (epoch_at (ticks w)) /\
    Counts.succ (_counts (self w2)) = Counts.succ (_counts (self w)) + 1 /\
    emitted w2 = emitted w ++ ["change"%string].
Proof.
  intros Hrun Hhash Hcb Hp. eexists _, _.
  split; [apply run_starts, Hrun|]. split.
  - rewrite run_response_changed by assumption.
    rewrite succ_without_patches by exact Hp. apply upd_eq.
  - repeat split.
Qed.

(** X16: for an entity with patches and no callback, when the body
    parses and the transforms leave [hash] and [_counts] alone: the new hash is
    stored, [updated] is bumped (by the patch pipeline last), one
    success is counted and exactly two ['change'] are emitted. *)
Lemma change_recorded_with_patches (cb : option (M unit)) (w : World)
    (headers : gmap string string) (body : string)
    (v : string) (vs : list string) (data : Json) :
  (forall v t data, hash (props (patch_module v t data)) = hash (props t)) ->
  (forall v t data, _counts (patch_module v t data) = _counts t) ->
  _running (self w) = false ->
  hash (props (self w)) <> Some (makeHash headers body) ->
  truthy_str (callback (props (self w))) = false ->
  patches (props (self w)) = PArr (v :: vs) ->
  JSON_parse body = Some data ->
  exists w1 w2 : World,
    run cb w = (Ok None, w1) /\
    run_response (Reply 200 headers body) w1 = (Ok tt, w2) /\
    hash (props (self w2)) = Some (makeHash headers body) /\
    updated (props (self w2)) = Some (epoch_at (S (ticks w))) /\
    Counts.succ (_counts (self w2)) = Counts.succ (_counts (self w)) + 1 /\
    emitted w2 = emitted w ++ ["change"%string; "change"%string].
Proof.
  intros Hkh Hkc Hrun Hhash Hcb Hp Hj. eexists _, _.
  split; [apply run_starts, Hrun|]. split.
  - rewrite run_response_changed by assumption.
    erewrite succ_with_patches by (first [exact Hp | exact Hj]).
    apply upd_eq.
  - cbn [self props _counts emitted after_patches with_props set_updated
           hash updated Counts.succ].
    rewrite (fold_patches_keep (fun t => hash (props t)) Hkh).
    rewrite (fold_patches_keep _counts Hkc).
    split; [reflexivity|]. split; [reflexivity|]. split; [reflexivity|].
    simpl. rewrite <- app_assoc. reflexivity.
Qed.

(** *** The run pipeline and [state] *)

(** Without patches, no completion function of [run] writes [state]. *)
Lemma run_response_keeps_state (w : World) (r : Response) :
  has_patches (patches (props (self w))) = false ->
  state (props (self (snd (run_response r w)))) = state (props (self w)).
Proof.
  intros Hp. destruct (failed r) eqn:Hf.
  - rewrite run_response_failed, upd_eq by exact Hf. reflexivity.
  - destruct r as [e|st headers body]; [discriminate|].
    simpl in Hf. apply negb_false_iff, Z.eqb_eq in Hf. subst st.
    destruct (decide (hash (props (self w)) = Some (makeHash headers body)))
      as [Hh|Hh].
    + rewrite run_response_same_hash, upd_eq by exact Hh. reflexivity.
    + destruct (truthy_str (callback (props (self w)))) eqn:Hcb.
      * rewrite run_response_forwards by assumption. reflexivity.
      * rewrite run_response_changed by assumption.
        rewrite succ_without_patches, upd_eq by exact Hp. reflexivity.
Qed.

Lemma run_callback_response_keeps_state (w : World)
    (headers : gmap string string) (body hash' : string) (r_ : Response) :
  has_patches (patches (props (self w))) = false ->
  state (props (self (snd (run_callback_response headers body hash' r_ w))))
    = state (props (self w)).
Proof.
  intros Hp. destruct (failed r_) eqn:Hf.
  - rewrite run_callback_response_failed, upd_eq by exact Hf. reflexivity.
  - rewrite run_callback_response_ok by exact Hf.
    rewrite succ_without_patches, upd_eq by exact Hp. reflexivity.
Qed.

(** The tick function is [run] on a function that is never called: a
    running timer that fires does what a bare [run] does, once the
    library has done its part. *)
Lemma fire_is_run (w : World) (j : CronJob) :
  _cronJob (self w) = Some j ->
  running j = true ->
  fire Date_now w
  = run None (mkWorld (set_cronJob (Some (CronJob_fired j)) (self w))
                (emitted w) (outbox w) (ticks w)).
Proof.
  intros Hj Hr. unfold fire, mbind, M_bind, get_self. rewrite Hj, Hr.
  reflexivity.
Qed.
End Properties.



Section ConstructionProperties.
Variable Date_now : nat -> Z.

Local Abbreviation Task_new := (Task_new Date_now).
Local Abbreviation epoch_at := (epoch_at Date_now).
Local Abbreviation offset_cron := (offset_cron Date_now).
Local Abbreviation offset_expireAt := (offset_expireAt Date_now).
Local Abbreviation default_created := (default_created Date_now).

Lemma merge_opt_None {A : Type} (a : option A) : merge_opt None a = a.
Proof. destruct a; reflexivity. Qed.

(** Merging a record into the fresh object gives the record. *)
Lemma _Merge_blank (a : Obj) : _Merge blank (Some a) = a.
Proof.
  destruct a as [[n st u cb to h ut ct p cr e crd up] r cs l].
  unfold _Merge, _Merge_props. simpl. rewrite !merge_opt_None.
  destruct p, cr; reflexivity.
Qed.

(** The constructor, when it returns, is the composition of its
    assignments. *)
Lemma Task_new_inv (task : Obj) (k k' : nat) (t : Task) :
  Task_new (Some task) k = (Ok t, k') ->
  let p0 := wrap_patches (default_state (o_props task)) in
  let pc := offset_cron p0 k in
  let pe := offset_expireAt (fst pc) (snd pc) in
  let pd := default_created (fst pe) (snd pe) in
  truthy_str (name (o_props task)) = true /\
  truthy_str (url (default_state (o_props task))) = true /\
  t = mkTask (default_updated (fst pd)) false Counts.zero Last.null None /\
  k' = snd pd.
Proof.
  unfold Task_new. rewrite _Merge_blank. intros Hnew. simpl.
  destruct (truthy_str (name (o_props task))); [|discriminate].
  destruct (truthy_str (url (default_state (o_props task)))); [|discriminate].
  cbn [negb] in Hnew.
  destruct (offset_cron _ k) as [p1 k1]. cbn [fst snd].
  destruct (offset_expireAt p1 k1) as [p2 k2]. cbn [fst snd].
  destruct (default_created p2 k2) as [p3 k3]. cbn [fst snd].
  split; [reflexivity|]. split; [reflexivity|]. split; congruence.
Qed.

Lemma Task_new_eq (task : Obj) (k : nat) :
  truthy_str (name (o_props task)) = true ->
  truthy_str (url (default_state (o_props task))) = true ->
  let p0 := wrap_patches (default_state (o_props task)) in
  let pc := offset_cron p0 k in
  let pe := offset_expireAt (fst pc) (snd pc) in
  let pd := default_created (fst pe) (snd pe) in
  Task_new (Some task) k =
    (Ok (mkTask (default_updated (fst pd)) false Counts.zero Last.null None),
     snd pd).
Proof.
  intros Hn Hu. unfold Task_new. rewrite _Merge_blank. simpl.
  rewrite Hn, Hu. cbn [negb].
  destruct (offset_cron _ k) as [p1 k1]. cbn [fst snd].
  destruct (offset_expireAt p1 k1) as [p2 k2]. cbn [fst snd].
  destruct (default_created p2 k2) as [p3 k3]. reflexivity.
Qed.

(** Which assignment touches which key. *)
Ltac stage := intros;
  repeat match goal with
         | |- context [if ?b then _ else _] => destruct b
         | |- context [match ?x with _ => _ end] => destruct x
         end; reflexivity.

Lemma cron_default_state p : cron (default_state p) = cron p.
Proof. unfold default_state. stage. Qed.
Lemma cron_wrap_patches p : cron (wrap_patches p) = cron p.
Proof. unfold wrap_patches. stage. Qed.
Lemma cron_offset_expireAt p k : cron (fst (offset_expireAt p k)) = cron p.
Proof. unfold offset_expireAt. stage. Qed.
Lemma cron_default_created p k : cron (fst (default_created p k)) = cron p.
Proof. unfold default_created. stage. Qed.
Lemma cron_default_updated p : cron (default_updated p) = cron p.
Proof. unfold default_updated. stage. Qed.


(** *** Reconstruction from the serialized form *)

Ltac identity_stage := intros; unfold same_identity;
  repeat match goal with
         | |- context [if ?b then _ else _] => destruct b
         | |- context [match ?x with _ => _ end] => destruct x
         end; repeat split.

Lemma same_identity_default_state p : same_identity (default_state p) p.
Proof. unfold default_state. identity_stage. Qed.
Lemma same_identity_wrap_patches p : same_identity (wrap_patches p) p.
Proof. unfold wrap_patches. identity_stage. Qed.
Lemma same_identity_offset_cron p k :
  same_identity (fst (offset_cron p k)) p.
Proof. unfold offset_cron. identity_stage. Qed.
Lemma same_identity_offset_expireAt p k :
  same_identity (fst (offset_expireAt p k)) p.
Proof. unfold offset_expireAt. identity_stage. Qed.
Lemma same_identity_default_created p k :
  same_identity (fst (default_created p k)) p.
Proof. unfold default_created. identity_stage. Qed.
Lemma same_identity_default_updated p : same_identity (default_updated p) p.
Proof. unfold default_updated. identity_stage. Qed.

Lemma same_identity_trans p q r :
  same_identity p q -> same_identity q r -> same_identity p r.
Proof.
  unfold same_identity.
  intros (? & ? & ? & ? & ? & ? & ?) (? & ? & ? & ? & ? & ? & ?).
  repeat split; congruence.
Qed.

(** On normalised fields no assignment of the constructor fires. *)
Lemma normalised_fixed (p : Props) (k : nat) :
  normalised p ->
  default_state p = p /\ wrap_patches p = p /\ offset_cron p k = (p, k) /\
  offset_expireAt p k = (p, k) /\ default_created p k = (p, k) /\
  default_updated p = p.
Proof.
  intros (Hst & Hp & Hc & He & Hcr & Hup).
  destruct p as [n st u cb to h ut ct pa cr e crd up]. simpl in *.
  repeat split.
  - unfold default_state. simpl. destruct st as [z|]; [|congruence].
    simpl. destruct (Z.eqb_spec z 0) as [->|]; reflexivity.
  - unfold wrap_patches. simpl. destruct pa; try reflexivity.
    exfalso. eapply Hp. reflexivity.
  - unfold offset_cron. simpl. destruct cr as [|c|]; try reflexivity.
    specialize (Hc c eq_refl). apply Z.ltb_ge in Hc. rewrite Hc. reflexivity.
  - unfold offset_expireAt. simpl. destruct e as [z|]; [|reflexivity].
    destruct (He z eq_refl) as [->|Hz]; [reflexivity|].
    apply Z.ltb_ge in Hz. rewrite Hz, andb_false_r. reflexivity.
  - unfold default_created. simpl. rewrite Hcr. reflexivity.
  - unfold default_updated. simpl. rewrite Hup. reflexivity.
Qed.

(** A construction that returns kept the name and the url it was given. *)
Lemma reconstruction_frame (task : Obj) (k k' : nat) (t : Task) :
  Task_new (Some task) k = (Ok t, k') ->
  truthy_str (name (props t)) = true /\
  truthy_str (url (props t)) = true /\
  same_identity (props t) (o_props task).
Proof.
  intros Hnew. destruct (Task_new_inv _ _ _ _ Hnew) as (Hn & Hu & -> & _).
  cbn [props].
  assert (Hid : same_identity
                  (default_updated
                     (fst (default_created
                        (fst (offset_expireAt
                           (fst (offset_cron
                              (wrap_patches (default_state (o_props task))) k))
                           (snd (offset_cron
                              (wrap_patches (default_state (o_props task))) k))))
                        (snd (offset_expireAt
                           (fst (offset_cron
                              (wrap_patches (default_state (o_props task))) k))
                           (snd (offset_cron
                              (wrap_patches (default_state (o_props task))) k)))))))
                  (o_props task)).
  { eapply same_identity_trans; [apply same_identity_default_updated|].
    eapply same_identity_trans; [apply same_identity_default_created|].
    eapply same_identity_trans; [apply same_identity_offset_expireAt|].
    eapply same_identity_trans; [apply same_identity_offset_cron|].
    eapply same_identity_trans; [apply same_identity_wrap_patches|].
    apply same_identity_default_state. }
  split; [|split; [|exact Hid]].
  - destruct Hid as (-> & _). exact Hn.
  - destruct Hid as (_ & -> & _).
    destruct (same_identity_default_state (o_props task)) as (_ & <- & _).
    exact Hu.
Qed.

(** The keys an assignment of the constructor leaves alone. *)
Lemma state_wrap_patches p : state (wrap_patches p) = state p.
Proof. unfold wrap_patches. stage. Qed.
Lemma state_offset_cron p k : state (fst (offset_cron p k)) = state p.
Proof. unfold offset_cron. stage. Qed.
Lemma state_offset_expireAt p k : state (fst (offset_expireAt p k)) = state p.
Proof. unfold offset_expireAt. stage. Qed.
Lemma state_default_created p k : state (fst (default_created p k)) = state p.
Proof. unfold default_created. stage. Qed.
Lemma state_default_updated p : state (default_updated p) = state p.
Proof. unfold default_updated. stage. Qed.
Lemma patches_offset_cron p k : patches (fst (offset_cron p k)) = patches p.
Proof. unfold offset_cron. stage. Qed.
Lemma patches_offset_expireAt p k : patches (fst (offset_expireAt p k)) = patches p.
Proof. unfold offset_expireAt. stage. Qed.
Lemma patches_default_created p k : patches (fst (default_created p k)) = patches p.
Proof. unfold default_created. stage. Qed.
Lemma patches_default_updated p : patches (default_updated p) = patches p.
Proof. unfold default_updated. stage. Qed.
Lemma expireAt_default_state p : expireAt (default_state p) = expireAt p.
Proof. unfold default_state. stage. Qed.
Lemma expireAt_wrap_patches p : expireAt (wrap_patches p) = expireAt p.
Proof. unfold wrap_patches. stage. Qed.
Lemma expireAt_offset_cron p k : expireAt (fst (offset_cron p k)) = expireAt p.
Proof. unfold offset_cron. stage. Qed.
Lemma expireAt_default_created p k : expireAt (fst (default_created p k)) = expireAt p.
Proof. unfold default_created. stage. Qed.
Lemma expireAt_default_updated p : expireAt (default_updated p) = expireAt p.
Proof. unfold default_updated. stage. Qed.
Lemma created_default_updated p : created (default_updated p) = created p.
Proof. unfold default_updated. stage. Qed.

Create Rewrite HintDb ctor_frame.
#[local] Hint Rewrite state_wrap_patches state_offset_cron
  state_offset_expireAt state_default_created state_default_updated
  patches_offset_cron patches_offset_expireAt patches_default_created
  patches_default_updated cron_offset_expireAt cron_default_created
  cron_default_updated expireAt_default_created expireAt_default_updated
  created_default_updated : ctor_frame.

Lemma created_default_state p : created (default_state p) = created p.
Proof. unfold default_state. stage. Qed.
Lemma created_wrap_patches p : created (wrap_patches p) = created p.
Proof. unfold wrap_patches. stage. Qed.
Lemma created_offset_cron p k : created (fst (offset_cron p k)) = created p.
Proof. unfold offset_cron. stage. Qed.
Lemma created_offset_expireAt p k :
  created (fst (offset_expireAt p k)) = created p.
Proof. unfold offset_expireAt. stage. Qed.
Lemma updated_default_state p : updated (default_state p) = updated p.
Proof. unfold default_state. stage. Qed.
Lemma updated_wrap_patches p : updated (wrap_patches p) = updated p.
Proof. unfold wrap_patches. stage. Qed.
Lemma updated_offset_cron p k : updated (fst (offset_cron p k)) = updated p.
Proof. unfold offset_cron. stage. Qed.
Lemma updated_offset_expireAt p k :
  updated (fst (offset_expireAt p k)) = updated p.
Proof. unfold offset_expireAt. stage. Qed.
Lemma updated_default_created p k :
  updated (fst (default_created p k)) = updated p.
Proof. unfold default_created. stage. Qed.
Lemma patches_default_state p : patches (default_state p) = patches p.
Proof. unfold default_state. stage. Qed.

(** The one key each assignment of the constructor may write, and when
    it leaves that key alone. *)
Lemma default_state_skipped p : state p <> None -> default_state p = p.
Proof.
  intros Hst. unfold default_state.
  destruct p as [n [z|] u cb to h ut ct pa cr e crd up];
    cbn [state truthy_num] in *; [|congruence].
  destruct (Z.eqb_spec z 0) as [->|]; reflexivity.
Qed.

Lemma wrap_patches_skipped p :
  (forall v, patches p <> PStr v) -> wrap_patches p = p.
Proof.
  intros Hp. unfold wrap_patches.
  destruct (patches p) as [|v|vs]; try reflexivity.
  destruct (Hp v eq_refl).
Qed.

Lemma offset_cron_skipped p k :
  (forall c, cron p = CNum c -> 1000000 <= c) -> offset_cron p k = (p, k).
Proof.
  intros Hc. unfold offset_cron.
  destruct (cron p) as [|c|s] eqn:E; try reflexivity.
  specialize (Hc c eq_refl). apply Z.ltb_ge in Hc. rewrite Hc. reflexivity.
Qed.

Lemma offset_expireAt_skipped p k :
  (forall e, expireAt p = Some e -> e = 0 \/ 1000000 <= e) ->
  offset_expireAt p k = (p, k).
Proof.
  intros He. unfold offset_expireAt.
  destruct (expireAt p) as [e|] eqn:E; [|reflexivity].
  destruct (He e eq_refl) as [->|Hz]; [reflexivity|].
  apply Z.ltb_ge in Hz. rewrite Hz, andb_false_r. reflexivity.
Qed.

Lemma default_created_skipped p k :
  truthy_num (created p) = true -> default_created p k = (p, k).
Proof. intros H. unfold default_created. rewrite H. reflexivity. Qed.

Lemma default_updated_skipped p :
  truthy_num (updated p) = true -> default_updated p = p.
Proof. intros H. unfold default_updated. rewrite H. reflexivity. Qed.

(** C1, as the constructor has it: feeding [toJSON] back into the
    constructor succeeds for an entity with a name and a url.  The
    statistics are not reproduced: [_running] is false and [_counts] and
    [_last] restart from their initial values.  [name], [url],
    [callback], [timeout], [hash], [urlTemplate] and [callbackTemplate]
    are always reproduced.  Each of the other six fields is reproduced
    under its own condition, whatever the rest holds: [state] when it is
    present, [patches] when it is not a bare string, [cron] when it is
    not a number below the threshold, [expireAt] when it is falsy or at
    or above the threshold, [created] when it is truthy and [updated]
    when it is truthy.  When all six conditions hold the whole
    configuration is reproduced and no clock reading is made. *)
Theorem reconstruction_restarts_statistics (t : Task) (k : nat) :
  truthy_str (name (props t)) = true ->
  truthy_str (url (props t)) = true ->
  exists (t' : Task) (k' : nat),
    Task_new (Some (toJSON t)) k = (Ok t', k') /\
    _running t' = false /\
    _counts t' = Counts.zero /\
    _last t' = Last.null /\
    same_identity (props t') (props t) /\
    (state (props t) <> None -> state (props t') = state (props t)) /\
    ((forall v, patches (props t) <> PStr v) ->
     patches (props t') = patches (props t)) /\
    ((forall c, cron (props t) = CNum c -> 1000000 <= c) ->
     cron (props t') = cron (props t)) /\
    ((forall e, expireAt (props t) = Some e -> e = 0 \/ 1000000 <= e) ->
     expireAt (props t') = expireAt (props t)) /\
    (truthy_num (created (props t)) = true ->
     created (props t') = created (props t)) /\
    (truthy_num (updated (props t)) = true ->
     updated (props t') = updated (props t)) /\
    (normalised (props t) -> props t' = props t /\ k' = k).
Proof.
  intros Hn Hu.
  assert (Hu' : truthy_str (url (default_state (props t))) = true).
  { destruct (same_identity_default_state (props t)) as (_ & -> & _).
    exact Hu. }
  eexists _, _. split; [apply Task_new_eq; assumption|].
  cbn [_running _counts _last props toJSON o_props].
  do 3 (split; [reflexivity|]). split; [|repeat split].
  - eapply same_identity_trans; [apply same_identity_default_updated|].
    eapply same_identity_trans; [apply same_identity_default_created|].
    eapply same_identity_trans; [apply same_identity_offset_expireAt|].
    eapply same_identity_trans; [apply same_identity_offset_cron|].
    eapply same_identity_trans; [apply same_identity_wrap_patches|].
    apply same_identity_default_state.
  - intros Hst. autorewrite with ctor_frame.
    rewrite default_state_skipped by exact Hst. reflexivity.
  - intros Hp. autorewrite with ctor_frame.
    rewrite wrap_patches_skipped
      by (rewrite patches_default_state; exact Hp).
    apply patches_default_state.
  - intros Hc. autorewrite with ctor_frame.
    rewrite offset_cron_skipped
      by (rewrite cron_wrap_patches, cron_default_state; exact Hc).
    cbn [fst]. rewrite cron_wrap_patches. apply cron_default_state.
  - intros He. autorewrite with ctor_frame.
    rewrite offset_expireAt_skipped
      by (rewrite expireAt_offset_cron, expireAt_wrap_patches,
            expireAt_default_state; exact He).
    cbn [fst]. rewrite expireAt_offset_cron, expireAt_wrap_patches.
    apply expireAt_default_state.
  - intros Hcr. autorewrite with ctor_frame.
    rewrite default_created_skipped
      by (rewrite created_offset_expireAt, created_offset_cron,
            created_wrap_patches, created_default_state; exact Hcr).
    cbn [fst]. rewrite created_offset_expireAt, created_offset_cron,
      created_wrap_patches. apply created_default_state.
  - intros Hup.
    rewrite default_updated_skipped
      by (rewrite updated_default_created, updated_offset_expireAt,
            updated_offset_cron, updated_wrap_patches, updated_default_state;
          exact Hup).
    rewrite updated_default_created, updated_offset_expireAt,
      updated_offset_cron, updated_wrap_patches. apply updated_default_state.
  - destruct (normalised_fixed _ k H) as (E1 & E2 & E3 & E4 & E5 & E6).
    rewrite E1, E2, E3. cbn [fst snd]. rewrite E4. cbn [fst snd].
    rewrite E5. cbn [fst snd]. rewrite E6. reflexivity.
  - destruct (normalised_fixed _ k H) as (E1 & E2 & E3 & E4 & E5 & _).
    rewrite E1, E2, E3. cbn [fst snd]. rewrite E4. cbn [fst snd].
    rewrite E5. reflexivity.
Qed.

(** On a clock past the threshold, and with offsets that are not
    negative, the constructor leaves normalised fields. *)
Lemma Task_new_normalised (task : Obj) (k k' : nat) (t : Task) :
  (forall j, 1000000 <= epoch_at j) ->
  (forall c, cron (o_props task) = CNum c -> 0 <= c) ->
  (forall e, expireAt (o_props task) = Some e -> 0 <= e) ->
  Task_new (Some task) k = (Ok t, k') ->
  truthy_str (name (props t)) = true /\
  truthy_str (url (props t)) = true /\
  normalised (props t).
Proof.
  intros Hclk Hc He Hnew.
  destruct (reconstruction_frame _ _ _ _ Hnew) as (Hn & Hu & Hid).
  destruct (Task_new_inv _ _ _ _ Hnew) as (_ & _ & -> & _).
  cbn [props] in *.
  split; [exact Hn|]. split; [exact Hu|].
  set (p0 := o_props task) in *.
  set (p1 := default_state p0). set (p2 := wrap_patches p1).
  set (kc := snd (offset_cron p2 k)). set (p3 := fst (offset_cron p2 k)).
  set (ke := snd (offset_expireAt p3 kc)).
  set (p4 := fst (offset_expireAt p3 kc)).
  set (p5 := fst (default_created p4 ke)).
  assert (Hcr : truthy_num (created p5) = true).
  { subst p5. unfold default_created at 1.
    destruct (truthy_num (created p4)) eqn:E; cbn [negb fst]; [exact E|].
    simpl. specialize (Hclk ke). destruct (Z.eqb_spec (epoch_at ke) 0); [lia|].
    reflexivity. }
  unfold normalised. subst p5 p4 p3 p2 p1.
  autorewrite with ctor_frame. repeat split.
  - unfold default_state.
    destruct (state p0) as [z|] eqn:E; simpl.
    + destruct (z =? 0); simpl; congruence.
    + discriminate.
  - intros v. unfold wrap_patches.
    destruct (patches (default_state p0)) eqn:E; simpl; congruence.
  - intros c. unfold offset_cron.
    rewrite cron_wrap_patches, cron_default_state.
    destruct (cron p0) as [|c0|] eqn:E;
      try (cbn [fst]; rewrite cron_wrap_patches, cron_default_state, E;
           discriminate).
    specialize (Hc c0 eq_refl). specialize (Hclk k).
    destruct (Z.ltb_spec c0 1000000); cbn [fst cron set_cron].
    + intros [= <-]. lia.
    + rewrite cron_wrap_patches, cron_default_state, E. intros [= <-]. lia.
  - intros e. unfold offset_expireAt at 1.
    rewrite expireAt_offset_cron, expireAt_wrap_patches, expireAt_default_state.
    destruct (expireAt p0) as [e0|] eqn:E.
    + specialize (He e0 eq_refl). specialize (Hclk kc).
      simpl. destruct (Z.eqb_spec e0 0); simpl.
      * rewrite expireAt_offset_cron, expireAt_wrap_patches,
          expireAt_default_state, E.
        intros [= <-]. left. assumption.
      * destruct (Z.ltb_spec e0 1000000); cbn [fst expireAt set_expireAt].
        -- intros [= <-]. lia.
        -- rewrite expireAt_offset_cron, expireAt_wrap_patches,
             expireAt_default_state, E.
           intros [= <-]. lia.
    + cbn [fst]. rewrite expireAt_offset_cron, expireAt_wrap_patches,
        expireAt_default_state, E. discriminate.
  - exact Hcr.
  - unfold default_updated at 1.
    match goal with
    | |- context [negb (truthy_num (updated ?q))] =>
        destruct (truthy_num (updated q)) eqn:E; simpl; [exact E|exact Hcr]
    end.
Qed.

(** On normalised fields the constructor is the identity on the
    configuration and reads no clock. *)
Lemma Task_new_on_normalised (o : Obj) (k : nat) :
  truthy_str (name (o_props o)) = true ->
  truthy_str (url (o_props o)) = true ->
  normalised (o_props o) ->
  Task_new (Some o) k
    = (Ok (mkTask (o_props o) false Counts.zero Last.null None), k).
Proof.
  intros Hn Hu Hnorm.
  destruct (normalised_fixed _ k Hnorm) as (E1 & E2 & E3 & E4 & E5 & E6).
  rewrite Task_new_eq by (rewrite ?E1; assumption).
  rewrite E1, E2, E3. cbn [fst snd]. rewrite E4. cbn [fst snd].
  rewrite E5. cbn [fst snd]. rewrite E6. reflexivity.
Qed.

(** X4: right after construction the statistics are still at their
    initial values, so the round trip through [toJSON] is exact for such
    an entity: on a clock past the threshold and with offsets that are
    not negative, the constructor reproduces every serialized field of an
    entity it has just built. *)
Lemma fresh_task_round_trips (task : Obj) (k k' j : nat) (t : Task) :
  (forall j, 1000000 <= epoch_at j) ->
  (forall c, cron (o_props task) = CNum c -> 0 <= c) ->
  (forall e, expireAt (o_props task) = Some e -> 0 <= e) ->
  Task_new (Some task) k = (Ok t, k') ->
  round_trips Date_now j t.
Proof.
  intros Hclk Hc He Hnew.
  destruct (Task_new_normalised _ _ _ _ Hclk Hc He Hnew) as (Hn & Hu & Hnorm).
  destruct (Task_new_inv _ _ _ _ Hnew) as (_ & _ & Ht & _).
  eexists _, j. split; [apply (Task_new_on_normalised (toJSON t)); assumption|].
  split; [reflexivity|].
  rewrite Ht. repeat split.
Qed.
End ConstructionProperties.

Section OneShot.
Variable CronJob_rejects : string -> option string.
Variable sha256_hex : string -> string.
Variable Json : Type.
Variable JSON_parse : string -> option Json.
Variable patch_module : string -> Task -> Json -> Task.

(** [run] never refers to its argument. *)
Lemma run_ignores_cb (cb : option (M unit)) (w : World) :
  run cb w = run None w.
Proof. reflexivity. Qed.

(** C3 at its failing input: the entity of the example (numeric
    [cron], constructed at epoch 1000) is scheduled, its one-shot timer
    fires and the run completes, whatever the response.  The function
    handed to [run] by the tick function is the only caller of [stop],
    and [run] never calls it: the run is counted and the state is still
    ACTIVE, not STOPPED. *)
Theorem one_shot_stays_active_after_run (r : Response) :
  sched CronJob_rejects true (mkWorld t1_constructed [] [] 2)
    = (Ok tt, t1_scheduled) /\
  fire example_clock t1_scheduled = (Ok None, t1_in_flight) /\
  exists w : World,
    run_response example_clock sha256_hex Json JSON_parse patch_module r
      t1_in_flight = (Ok tt, w) /\
    _running (self w) = false /\
    Counts.run (_counts (self w)) = 1 /\
    state (props (self w)) = Some ACTIVE /\
    state (props (self w)) <> Some STOPPED.
Proof.
  split; [reflexivity|]. split; [reflexivity|].
  destruct (failed r) eqn:Hf.
  - eexists.
    split; [rewrite run_response_failed by exact Hf; apply upd_eq|].
    repeat split. discriminate.
  - destruct r as [e|st headers body]; [discriminate|].
    simpl in Hf. apply negb_false_iff, Z.eqb_eq in Hf. subst st.
    eexists. split.
    + rewrite run_response_changed by (first [discriminate | reflexivity]).
      rewrite succ_without_patches by reflexivity. apply upd_eq.
    + repeat split. discriminate.
Qed.
End OneShot.

(** ** Examples *)

(** The example of the specification: constructed at epoch 1000 with
    [cron: 30], the entity stores [cron = 1030]. *)
Example Task_new_t1 :
  Task_new example_clock (Some example_t1) 0 = (Ok t1_constructed, 2%nat).
Proof. reflexivity. Qed.

(** Construction without a configuration record fails on the name. *)
Example Task_new_without_name :
  Task_new example_clock None 0
  = (Throw (Error "`name` must has a value"), 0%nat).
Proof. reflexivity. Qed.

(** The second example of the specification: a probe that returns the
    content already seen reports [modified = false] and writes nothing,
    and a run on the same content is a no-change success. *)
Example test_then_run_on_seen_content :
  test_response example_digest true (Reply 200 example_headers "hello")
    (world_of t2)
  = (Ok (Some (CbOk example_headers "hello" false)), world_of t2) /\
  (run None;;
   run_response example_clock example_digest JsonLiteral example_parse
     example_patch (Reply 200 example_headers "hello"))
    (world_of t2)
  = (Ok tt,
     mkWorld
       (mkTask t2_props false (Counts.mk 5 1 4)
          (Last.mk (Some true) (Some 1000)) None)
       [] [(rsrc t2, KRun)] 1).
Proof. split; reflexivity. Qed.

(** C1 fails as stated: the entity of the example, after one failed run,
    does not come back from its serialized form.  Reconstruction resets
    [_counts] and [_last], and adds the clock to the stored [cron] again. *)
Lemma reconstruction_loses_statistics :
  ~ round_trips example_clock 3 t1_after_failed_run.
Proof.
  intros (t' & k' & Hnew & _ & _ & Hcounts & _).
  vm_compute in Hnew. inversion Hnew; subst t'. discriminate Hcounts.
Qed.

(** The entity of the example after construction and one run that ends
    in a transport error, in any environment. *)
Example t1_failed_run (sha256_hex : string -> string) (Json : Type)
    (JSON_parse : string -> option Json)
    (patch_module : string -> Task -> Json -> Task) :
  (run None;;
   run_response example_clock sha256_hex Json JSON_parse patch_module
     (NetErr "ETIMEDOUT"))
    (mkWorld t1_constructed [] [] 2)
  = (Ok tt,
     mkWorld t1_after_failed_run [] [(rsrc t1_constructed, KRun)] 3).
Proof. reflexivity. Qed.

(** What reconstruction makes of it at the next clock reading. *)
Example t1_reconstructed :
  Task_new example_clock (Some (toJSON t1_after_failed_run)) 3
  = (Ok (mkTask (set_cron (CNum 2033) (props t1_constructed)) false
           Counts.zero Last.null None),
     4%nat).
Proof. reflexivity. Qed.

(** ** The properties at concrete inputs *)

Lemma run_rejected_while_running_witness :
  _running (self t1_in_flight) = true /\
  run None t1_in_flight = (Ok (Some false), t1_in_flight).
Proof.
  split; [reflexivity|].
  apply (run_rejected_while_running None t1_in_flight). reflexivity.
Defined.

Lemma run_same_hash_counts_without_change_witness :
  exists w1 w2 : World,
    run None (world_of t2) = (Ok None, w1) /\
    run_response example_clock example_digest JsonLiteral example_parse
      example_patch (Reply 200 example_headers "hello") w1 = (Ok tt, w2) /\
    props (self w2) = t2_props /\
    emitted w2 = [] /\
    _counts (self w2) = Counts.mk 5 1 4 /\
    _last (self w2) = Last.mk (Some true) (Some 1000).
Proof.
  destruct (run_same_hash_counts_without_change example_clock example_digest
              JsonLiteral example_parse example_patch None (world_of t2)
              example_headers "hello" eq_refl eq_refl)
    as (w1 & w2 & H1 & H2 & H3 & H4 & H5 & H6 & H7 & H8 & _).
  exists w1, w2. do 4 (split; [assumption|]). split; [|exact H8].
  destruct (_counts (self w2)); simpl in *; subst; reflexivity.
Defined.

Lemma callback_failure_keeps_hash_and_retries_witness :
  let w := world_of (mkTask (set_hash None t2_props) false (Counts.mk 4 1 3)
                       (Last.mk (Some true) (Some 1700000010)) None) in
  let h' := makeHash example_digest example_headers "hello" in
  failed (Reply 503 ∅ "busy") = true /\
  exists w1 w2 w3 : World,
    run None w = (Ok None, w1) /\
    run_response example_clock example_digest JsonLiteral example_parse
      example_patch (Reply 200 example_headers "hello") w1 = (Ok tt, w2) /\
    run_callback_response example_clock JsonLiteral example_parse
      example_patch example_headers "hello" h' (Reply 503 ∅ "busy") w2
      = (Ok tt, w3) /\
    props (self w3) = props (self w) /\
    emitted w3 = [] /\
    Counts.err (_counts (self w3)) = 2 /\
    _last (self w3) = Last.mk (Some false) (Some 1000).
Proof.
  intros w h'. split; [reflexivity|].
  destruct (callback_failure_keeps_hash_and_retries example_clock
              example_digest JsonLiteral example_parse example_patch
              None None w example_headers "hello" (Reply 503 ∅ "busy")
              eq_refl ltac:(discriminate) eq_refl eq_refl)
    as (w1 & w2 & w3 & _ & _ & H1 & H2 & _ & H4 & H5 & H6 & _ & H8 & _ & H10 & _).
  exists w1, w2, w3. repeat (split; [assumption|]). exact H10.
Defined.

Lemma transitions_idempotent_witness :
  let w := world_of t2 in
  state (props (self w)) <> Some STOPPED /\
  exists w' : World,
    stop example_clock w = (Ok tt, w') /\
    state (props (self w')) = Some STOPPED /\
    updated (props (self w')) = Some 1000 /\
    emitted w' = ["change"%string] /\
    stop example_clock w' = (Ok tt, w').
Proof.
  intros w. split; [discriminate|].
  destruct (transitions_idempotent example_clock) as (_ & Hstop & _).
  exact (proj2 (Hstop w) ltac:(discriminate)).
Defined.

Lemma test_without_hash_reports_modified_witness :
  hash (props t1_constructed) = None /\
  test_response example_digest true (Reply 200 example_headers "hello")
    (world_of t1_constructed)
  = (Ok (Some (CbOk example_headers "hello" true)), world_of t1_constructed).
Proof.
  split; [reflexivity|].
  apply (test_without_hash_reports_modified example_digest
           (world_of t1_constructed) example_headers "hello").
  reflexivity.
Defined.


Lemma reconstruction_restarts_statistics_witness :
  (truthy_str (name (props t1_after_failed_run)) = true /\
   truthy_str (url (props t1_after_failed_run)) = true /\
   exists (t' : Task) (k' : nat),
     Task_new example_clock (Some (toJSON t1_after_failed_run)) 3
       = (Ok t', k') /\
     _counts t' = Counts.zero /\
     _last t' = Last.null /\
     hash (props t') = hash (props t1_after_failed_run) /\
     state (props t') = state (props t1_after_failed_run) /\
     patches (props t') = patches (props t1_after_failed_run) /\
     expireAt (props t') = expireAt (props t1_after_failed_run) /\
     created (props t') = created (props t1_after_failed_run) /\
     updated (props t') = updated (props t1_after_failed_run)) /\
  (normalised (props t2) /\
   exists (t' : Task) (k' : nat),
     Task_new example_clock (Some (toJSON t2)) 7 = (Ok t', k') /\
     _counts t' = Counts.zero /\
     _last t' = Last.null /\
     props t' = props t2 /\
     k' = 7%nat).
Proof.
  split.
  - split; [reflexivity|]. split; [reflexivity|].
    destruct (reconstruction_restarts_statistics example_clock
                t1_after_failed_run 3 eq_refl eq_refl)
      as (t' & k' & Hnew & _ & Hc & Hl & Hid & Hst & Hp & _ & He & Hcr
          & Hup & _).
    exists t', k'. do 3 (split; [assumption|]).
    split; [apply Hid|].
    split; [apply Hst; discriminate|].
    split; [apply Hp; discriminate|].
    split; [apply He; discriminate|].
    split; [apply Hcr; reflexivity|apply Hup; reflexivity].
  - assert (Hnorm : normalised (props t2)).
    { unfold normalised. simpl.
      split; [discriminate|]. split; [discriminate|].
      split; [intros c [= <-]; lia|].
      split; [discriminate|]. split; reflexivity. }
    split; [exact Hnorm|].
    destruct (reconstruction_restarts_statistics example_clock t2 7
                eq_refl eq_refl)
      as (t' & k' & Hnew & _ & Hc & Hl & _ & _ & _ & _ & _ & _ & _ & Hall).
    exists t', k'. do 3 (split; [assumption|]). exact (Hall Hnorm).
Defined.

Lemma run_not_finalized_when_body_not_json_witness :
  example_parse "<html>" = None /\
  exists w1 w2 : World,
    run None (world_of t3) = (Ok None, w1) /\
    run_response example_clock example_digest JsonLiteral example_parse
      example_patch (Reply 200 example_headers "<html>") w1
      = (Throw SyntaxError, w2) /\
    _running (self w2) = true /\
    _counts (self w2) = Counts.mk 4 1 3 /\
    _last (self w2) = Last.mk (Some true) (Some 1700000010).
Proof.
  split; [reflexivity|].
  destruct (run_not_finalized_when_body_not_json example_clock example_digest
              JsonLiteral example_parse example_patch None (world_of t3)
              example_headers "<html>" "p" []
              eq_refl ltac:(discriminate) eq_refl eq_refl eq_refl)
    as (w1 & w2 & H1 & H2 & H3 & H4 & H5 & _).
  exists w1, w2. repeat (split; [assumption|]). exact H5.
Defined.

Lemma change_not_counted_when_body_not_json_witness :
  example_parse "<html>" = None /\
  exists w1 w2 : World,
    run None (world_of t3) = (Ok None, w1) /\
    run_response example_clock example_digest JsonLiteral example_parse
      example_patch (Reply 200 example_headers "<html>") w1
      = (Throw SyntaxError, w2) /\
    hash (props (self w2))
      = Some (makeHash example_digest example_headers "<html>") /\
    emitted w2 = ["change"%string] /\
    Counts.succ (_counts (self w2)) = 3.
Proof.
  split; [reflexivity|].
  destruct (change_not_counted_when_body_not_json example_clock
              example_digest JsonLiteral example_parse example_patch None
              (world_of t3) example_headers "<html>" "p" []
              eq_refl ltac:(discriminate) eq_refl eq_refl eq_refl)
    as (w1 & w2 & H1 & H2 & H3 & _ & H5 & H6 & _).
  exists w1, w2. repeat (split; [assumption|]). exact H6.
Defined.

Lemma one_shot_stays_active_after_run_witness :
  exists w : World,
    run_response example_clock example_digest JsonLiteral example_parse
      example_patch (Reply 200 example_headers "hello") t1_in_flight
      = (Ok tt, w) /\
    _running (self w) = false /\
    Counts.run (_counts (self w)) = 1 /\
    state (props (self w)) = Some ACTIVE.
Proof.
  destruct (one_shot_stays_active_after_run example_rejects example_digest
              JsonLiteral example_parse example_patch
              (Reply 200 example_headers "hello"))
    as (_ & _ & w & H1 & H2 & H3 & H4 & _).
  exists w. repeat (split; [assumption|]). exact H4.
Defined.


(** ** Further properties of the constructor *)

Section ConstructionOutcome.
Variable Date_now : nat -> Z.

Local Abbreviation Task_new := (Task_new Date_now).
Local Abbreviation epoch_at := (epoch_at Date_now).

Lemma url_default_state p : url (default_state p) = url p.
Proof. unfold default_state. destruct (negb _); reflexivity. Qed.

(** X1: the constructor returns exactly when the name and the url are
    non-empty.  A missing or empty name throws the name error, also when
    no configuration is passed at all; a missing or empty url, with a
    name, throws the url error; a failed construction has read no clock. *)
Theorem construction_outcome (o : Obj) (k : nat) :
  ((exists (t : Task) (k' : nat), Task_new (Some o) k = (Ok t, k')) <->
   truthy_str (name (o_props o)) = true /\
   truthy_str (url (o_props o)) = true) /\
  (truthy_str (name (o_props o)) = false ->
   Task_new (Some o) k = (Throw (Error "`name` must has a value"), k)) /\
  (truthy_str (name (o_props o)) = true ->
   truthy_str (url (o_props o)) = false ->
   Task_new (Some o) k = (Throw (Error "`url` must has a value"), k)) /\
  Task_new None k = (Throw (Error "`name` must has a value"), k).
Proof.
  assert (Hname : truthy_str (name (o_props o)) = false ->
            Task_new (Some o) k = (Throw (Error "`name` must has a value"), k)).
  { intros Hn. unfold Task_new. rewrite _Merge_blank. cbn zeta.
    rewrite Hn. reflexivity. }
  assert (Hurl : truthy_str (name (o_props o)) = true ->
            truthy_str (url (o_props o)) = false ->
            Task_new (Some o) k = (Throw (Error "`url` must has a value"), k)).
  { intros Hn Hu. unfold Task_new. rewrite _Merge_blank. cbn zeta.
    rewrite Hn, url_default_state, Hu. reflexivity. }
  split; [|split; [exact Hname|split; [exact Hurl|reflexivity]]].
  split.
  - intros (t & k' & Hnew).
    destruct (truthy_str (name (o_props o))) eqn:Hn;
      [|rewrite Hname in Hnew by reflexivity; discriminate].
    destruct (truthy_str (url (o_props o))) eqn:Hu;
      [|rewrite Hurl in Hnew by reflexivity; discriminate].
    split; reflexivity.
  - intros (Hn & Hu). eexists _, _. apply Task_new_eq; [exact Hn|].
    rewrite url_default_state. exact Hu.
Qed.

Local Abbreviation offset_cron := (offset_cron Date_now).
Local Abbreviation offset_expireAt := (offset_expireAt Date_now).
Local Abbreviation default_created := (default_created Date_now).

Ltac frame_stage := intros;
  repeat match goal with
         | |- context [if ?b then _ else _] => destruct b
         | |- context [match ?x with _ => _ end] => destruct x
         end; cbn [fst snd]; (reflexivity || lia).

(** Each assignment that calls [_Now()] reads the clock at most once. *)
Lemma ticks_offset_cron p k :
  (k <= snd (offset_cron p k) <= S k)%nat.
Proof. unfold offset_cron. frame_stage. Qed.
Lemma ticks_offset_expireAt p k :
  (k <= snd (offset_expireAt p k) <= S k)%nat.
Proof. unfold offset_expireAt. frame_stage. Qed.
Lemma ticks_default_created p k :
  (k <= snd (default_created p k) <= S k)%nat.
Proof. unfold default_created. frame_stage. Qed.

(** X2: the defaults of a construction that returns.  [state] is the
    supplied one when truthy and ACTIVE otherwise; a bare string in
    [patches] becomes a one-element array; [created] is the supplied one
    when truthy and a clock reading of the construction otherwise;
    [updated] is the supplied one when truthy and the stored [created]
    otherwise; at most three clock readings are made. *)
Theorem construction_defaults (o : Obj) (k k' : nat) (t : Task) :
  Task_new (Some o) k = (Ok t, k') ->
  state (props t)
    = (if truthy_num (state (o_props o)) then state (o_props o)
       else Some ACTIVE) /\
  patches (props t)
    = match patches (o_props o) with PStr v => PArr [v] | ps => ps end /\
  (truthy_num (created (o_props o)) = true ->
   created (props t) = created (o_props o)) /\
  (truthy_num (created (o_props o)) = false ->
   exists j : nat, (k <= j < k')%nat /\ created (props t) = Some (epoch_at j)) /\
  (truthy_num (updated (o_props o)) = true ->
   updated (props t) = updated (o_props o)) /\
  (truthy_num (updated (o_props o)) = false ->
   updated (props t) = created (props t)) /\
  (k <= k' <= k + 3)%nat.
Proof.
  intros Hnew.
  destruct (Task_new_inv _ _ _ _ _ Hnew) as (_ & _ & -> & ->).
  cbn [props].
  set (p0 := o_props o).
  set (p2 := wrap_patches (default_state p0)).
  pose proof (ticks_offset_cron p2 k) as Hk1.
  set (k1 := snd (offset_cron p2 k)) in *.
  set (p3 := fst (offset_cron p2 k)).
  pose proof (ticks_offset_expireAt p3 k1) as Hk2.
  set (k2 := snd (offset_expireAt p3 k1)) in *.
  set (p4 := fst (offset_expireAt p3 k1)).
  pose proof (ticks_default_created p4 k2) as Hk3.
  assert (Hcr0 : created p4 = created p0).
  { subst p4 p3 p2. rewrite created_offset_expireAt, created_offset_cron,
      created_wrap_patches. apply created_default_state. }
  assert (Hup0 : updated (fst (default_created p4 k2)) = updated p0).
  { subst p4 p3 p2. rewrite updated_default_created, updated_offset_expireAt,
      updated_offset_cron, updated_wrap_patches. apply updated_default_state. }
  repeat split.
  - subst p4 p3. rewrite state_default_updated, state_default_created,
      state_offset_expireAt, state_offset_cron.
    subst p2. rewrite state_wrap_patches. unfold default_state.
    destruct (truthy_num (state p0)); reflexivity.
  - subst p4 p3. rewrite patches_default_updated, patches_default_created,
      patches_offset_expireAt, patches_offset_cron.
    subst p2. unfold wrap_patches. rewrite patches_default_state.
    destruct (patches p0) eqn:E; cbn [patches set_patches];
      rewrite ?patches_default_state; auto.
  - intros Hc. rewrite created_default_updated. unfold default_created at 1.
    rewrite Hcr0, Hc. cbn [negb fst]. exact Hcr0.
  - intros Hc. exists k2. rewrite created_default_updated.
    unfold default_created in *. rewrite Hcr0, Hc in *.
    cbn [negb fst snd] in *. split; [lia|reflexivity].
  - intros Hu. unfold default_updated. rewrite Hup0, Hu. cbn [negb].
    exact Hup0.
  - intros Hu. unfold default_updated. rewrite Hup0, Hu. reflexivity.
  - lia.
  - lia.
Qed.

(** X3: [expireAt] is normalised like [cron] except at zero.  A non-zero
    [expireAt] below 1,000,000 is stored as that value plus the clock
    reading taken after the one used for [cron]; zero, an absent value,
    and a value of 1,000,000 or more are stored unchanged. *)
Theorem expireAt_normalised_at_construction (o : Obj) (k k' : nat)
    (t : Task) :
  Task_new (Some o) k = (Ok t, k') ->
  let kc :=
    match cron (o_props o) with
    | CNum c => if c <? 1000000 then S k else k
    | _ => k
    end in
  match expireAt (o_props o) with
  | Some e =>
      if (e =? 0) || (1000000 <=? e) then expireAt (props t) = Some e
      else expireAt (props t) = Some (e + epoch_at kc)
  | None => expireAt (props t) = None
  end.
Proof.
  intros Hnew kc.
  destruct (Task_new_inv _ _ _ _ _ Hnew) as (_ & _ & -> & _).
  cbn [props].
  rewrite expireAt_default_updated, expireAt_default_created.
  set (p2 := wrap_patches (default_state (o_props o))).
  assert (Hkc : snd (offset_cron p2 k) = kc).
  { subst kc p2. unfold offset_cron.
    rewrite cron_wrap_patches, cron_default_state.
    destruct (cron (o_props o)) as [|c|]; try reflexivity.
    destruct (c <? 1000000); reflexivity. }
  rewrite Hkc. unfold offset_expireAt.
  rewrite expireAt_offset_cron. subst p2.
  rewrite expireAt_wrap_patches, expireAt_default_state.
  destruct (expireAt (o_props o)) as [e|] eqn:He.
  - unfold truthy_num.
    destruct (Z.eqb_spec e 0) as [->|Hne]; cbn [negb andb orb fst].
    + rewrite expireAt_offset_cron, expireAt_wrap_patches,
        expireAt_default_state. exact He.
    + destruct (Z.ltb_spec e 1000000) as [Hlt|Hge].
      * destruct (Z.leb_spec 1000000 e); [lia|]. reflexivity.
      * destruct (Z.leb_spec 1000000 e); [|lia].
        cbn [fst]. rewrite expireAt_offset_cron, expireAt_wrap_patches,
          expireAt_default_state. exact He.
  - cbn [fst]. rewrite expireAt_offset_cron, expireAt_wrap_patches,
      expireAt_default_state. exact He.
Qed.
End ConstructionOutcome.

(** ** Further properties of the helpers *)

Lemma string_length_append (a b : string) :
  String.length (a ++ b) = (String.length a + String.length b)%nat.
Proof. induction a as [|c a IH]; simpl; [reflexivity|]. rewrite IH. reflexivity. Qed.

Lemma string_append_inv_tail (a b s : string) :
  (a ++ s = b ++ s)%string -> a = b.
Proof.
  revert b. induction a as [|c a IH]; intros [|d b] H; simpl in H.
  - reflexivity.
  - apply (f_equal String.length) in H.
    rewrite !string_length_append in H. simpl in H. lia.
  - apply (f_equal String.length) in H.
    rewrite !string_length_append in H. simpl in H. lia.
  - injection H as -> H. f_equal. apply IH, H.
Qed.

(** X5: [toString] is keyed on the name: two entities whose names are
    present print the same exactly when the names are equal. *)
Theorem toString_keyed_on_name (t1 t2 : Task) (n1 n2 : string) :
  name (props t1) = Some n1 ->
  name (props t2) = Some n2 ->
  (toString t1 = toString t2 <-> n1 = n2).
Proof.
  intros H1 H2. unfold toString. rewrite H1, H2. cbn [js_to_string default].
  split; [|intros ->; reflexivity].
  intros H. apply (inj (String.app "[object Task('")) in H.
  apply string_append_inv_tail in H. exact H.
Qed.

Section ClockProperties.
Variable Date_now : nat -> Z.

(** X6: [_Now()] is the clock in whole seconds, truncated toward zero and
    wrapped to a signed 32-bit integer: the result is always in the
    32-bit range, differs from the truncated seconds by a multiple of
    2^32, and equals them whenever they are in that range (for a clock
    that is not negative, the seconds rounded down). *)
Theorem _Now_truncates_and_wraps (k : nat) :
  - 2 ^ 31 <= epoch_at Date_now k < 2 ^ 31 /\
  (epoch_at Date_now k - Date_now k ÷ 1000) mod 2 ^ 32 = 0 /\
  (- 2 ^ 31 <= Date_now k ÷ 1000 < 2 ^ 31 ->
   epoch_at Date_now k = Date_now k ÷ 1000) /\
  (0 <= Date_now k < 2 ^ 31 * 1000 ->
   1000 * epoch_at Date_now k <= Date_now k < 1000 * epoch_at Date_now k + 1000).
Proof.
  unfold epoch_at, toInt32. set (q := Date_now k ÷ 1000).
  assert (Hmod : 0 <= (q + 2 ^ 31) mod 2 ^ 32 < 2 ^ 32)
    by (apply Z.mod_pos_bound; lia).
  assert (Hin : - 2 ^ 31 <= q < 2 ^ 31 ->
                (q + 2 ^ 31) mod 2 ^ 32 - 2 ^ 31 = q).
  { intros Hq. rewrite Z.mod_small by lia. lia. }
  split; [lia|]. split; [|split; [exact Hin|]].
  - replace ((q + 2 ^ 31) mod 2 ^ 32 - 2 ^ 31 - q)
      with ((q + 2 ^ 31) mod 2 ^ 32 - (q + 2 ^ 31)) by lia.
    rewrite Zminus_mod, Z.mod_mod, Z.sub_diag by lia. reflexivity.
  - intros Hms.
    assert (Hq : q = Date_now k / 1000) by (apply Z.quot_div_nonneg; lia).
    pose proof (Z.mul_div_le (Date_now k) 1000 ltac:(lia)).
    pose proof (Z.mul_succ_div_gt (Date_now k) 1000 ltac:(lia)).
    assert (0 <= Date_now k / 1000 < 2 ^ 31).
    { split; [apply Z.div_pos; lia|].
      apply Z.div_lt_upper_bound; lia. }
    rewrite Hin by lia. lia.
Qed.
End ClockProperties.

(** ** Further properties of the prober and of the run pipeline *)

Lemma or_empty_Some (s : string) : or_empty (Some s) = s.
Proof.
  unfold or_empty, truthy_str. destruct (String.eqb_spec s ""); simpl; congruence.
Qed.

Section ProbeAndRun.
Variable Date_now : nat -> Z.
Variable sha256_hex : string -> string.
Variable Json : Type.
Variable JSON_parse : string -> option Json.
Variable patch_module : string -> Task -> Json -> Task.
Variable CronJob_rejects : string -> option string.

Local Abbreviation run_response :=
  (run_response Date_now sha256_hex Json JSON_parse patch_module).
Local Abbreviation run_callback_response :=
  (run_callback_response Date_now Json JSON_parse patch_module).
Local Abbreviation test_response := (test_response sha256_hex).
Local Abbreviation makeHash := (makeHash sha256_hex).
Local Abbreviation epoch_at := (epoch_at Date_now).
Local Abbreviation _patch := (_patch Date_now Json JSON_parse patch_module).
Local Abbreviation after_patches := (after_patches Date_now patch_module).

Lemma test_response_keeps_world (cb : bool) (r : Response) (w : World) :
  snd (test_response cb r w) = w.
Proof.
  destruct cb; [|reflexivity].
  destruct r as [e|st h b]; [reflexivity|].
  unfold test_response. cbn [negb].
  destruct (st =? 200); reflexivity.
Qed.

(** X7: the prober is read-only.  [test] queues the same GET as [run]
    would and touches nothing else, also while a run is in flight; its
    completion leaves the world as it was for every response; and without
    a completion function nothing is reported. *)
Theorem test_is_read_only (cb : bool) (r : Response) (w : World) :
  test cb w =
    (Ok tt,
     mkWorld (self w) (emitted w) (outbox w ++ [(rsrc (self w), KTest cb)])
       (ticks w)) /\
  snd (test_response cb r w) = w /\
  test_response false r w = (Ok None, w).
Proof.
  split; [reflexivity|]. split; [|reflexivity].
  destruct cb; [|reflexivity].
  destruct r as [e|st h b]; [reflexivity|].
  unfold test_response. cbn [negb].
  destruct (st =? 200); reflexivity.
Qed.

(** A failure is reported to the completion function of [test] as
    the error itself for a transport error, and as the status code for
    every status other than 200. *)
Theorem test_reports_failure (r : Response) (w : World) :
  failed r = true ->
  test_response true r w =
    (Ok (Some (CbErr match r with
                     | NetErr e => inl e
                     | Reply statusCode _ _ => inr statusCode
                     end)), w).
Proof.
  intros Hf. destruct r as [e|st h b]; [reflexivity|].
  simpl in Hf. unfold test_response. cbn [negb]. rewrite Hf. reflexivity.
Qed.

(** X8: the prober and the run pipeline agree.  When [test] reports
    [modified = false] for a response, the completion of [run] on the
    same response changes no configuration field, emits nothing and
    queues nothing; when it reports [modified = true], the completion of
    [run] queues the POST when a callback is configured and changes
    nothing yet, and otherwise (no patches) stores the digest of that
    response and emits one ['change']. *)
Theorem test_and_run_agree (w : World) (headers : gmap string string)
    (body : string) (modified : bool) :
  test_response true (Reply 200 headers body) w
    = (Ok (Some (CbOk headers body modified)), w) ->
  (modified = false ->
   exists w' : World,
     run_response (Reply 200 headers body) w = (Ok tt, w') /\
     props (self w') = props (self w) /\ emitted w' = emitted w /\
     outbox w' = outbox w) /\
  (modified = true ->
   truthy_str (callback (props (self w))) = true ->
   run_response (Reply 200 headers body) w =
     (Ok tt,
      mkWorld (self w) (emitted w)
        (outbox w ++
           [(callbk (self w) headers body,
             KRunCallback headers body (makeHash headers body))])
        (ticks w))) /\
  (modified = true ->
   truthy_str (callback (props (self w))) = false ->
   has_patches (patches (props (self w))) = false ->
   exists w' : World,
     run_response (Reply 200 headers body) w = (Ok tt, w') /\
     hash (props (self w')) = Some (makeHash headers body) /\
     emitted w' = emitted w ++ ["change"%string] /\
     outbox w' = outbox w).
Proof.
  intros Htest.
  assert (Hm : modified
               = negb (strict_eq_str (hash (props (self w)))
                         (makeHash headers body))).
  { unfold test_response in Htest. cbn [negb Z.eqb Pos.eqb] in Htest.
    unfold mbind, M_bind, get_self, mret, M_ret in Htest.
    injection Htest as <-. reflexivity. }
  split; [|split].
  - intros ->. symmetry in Hm. apply negb_false_iff, strict_eq_str_true in Hm.
    eexists. split.
    + rewrite run_response_same_hash by exact Hm. apply upd_eq.
    + repeat split.
  - intros -> Hcb. symmetry in Hm.
    apply negb_true_iff, strict_eq_str_false in Hm.
    apply run_response_forwards; assumption.
  - intros -> Hcb Hp. symmetry in Hm.
    apply negb_true_iff, strict_eq_str_false in Hm.
    eexists. split.
    + rewrite run_response_changed by assumption.
      rewrite succ_without_patches by exact Hp. apply upd_eq.
    + repeat split.
Qed.

(** X9: change detection reads the concatenation of the content type and
    the body, and nothing else.  A response whose content type followed
    by its body spells the same text as the response whose digest is
    stored is not a change, whatever its other headers and wherever the
    boundary between the two falls: the prober reports
    [modified = false], and the completion of [run] changes no
    configuration field and emits nothing. *)
Theorem change_detection_reads_concatenation (w : World)
    (h1 h2 : gmap string string) (b1 b2 : string) :
  hash (props (self w)) = Some (makeHash h1 b1) ->
  (or_empty (h1 !! "content-type"%string) ++ b1
   = or_empty (h2 !! "content-type"%string) ++ b2)%string ->
  test_response true (Reply 200 h2 b2) w
    = (Ok (Some (CbOk h2 b2 false)), w) /\
  exists w' : World,
    run_response (Reply 200 h2 b2) w = (Ok tt, w') /\
    props (self w') = props (self w) /\ emitted w' = emitted w.
Proof.
  intros Hhash Hcat.
  assert (Heq : makeHash h1 b1 = makeHash h2 b2).
  { unfold makeHash. rewrite !or_empty_Some, Hcat. reflexivity. }
  rewrite Heq in Hhash. split.
  - unfold test_response. cbn [negb Z.eqb Pos.eqb].
    unfold mbind, M_bind, get_self, mret, M_ret.
    apply strict_eq_str_true in Hhash. rewrite Hhash. reflexivity.
  - eexists. split.
    + rewrite run_response_same_hash by exact Hhash. apply upd_eq.
    + split; reflexivity.
Qed.

(** X10: a GET that fails, by a transport error or by any status other
    than 200, is counted as one run and one error with
    [_last.succ = false]; the configuration fields, the timer, the
    trace of events and the queue of requests are as they were. *)
Theorem fetch_failure_counts_error (w : World) (r : Response) :
  failed r = true ->
  exists w' : World,
    run_response r w = (Ok tt, w') /\
    props (self w') = props (self w) /\
    _cronJob (self w') = _cronJob (self w) /\
    emitted w' = emitted w /\ outbox w' = outbox w /\
    _running (self w') = false /\
    _counts (self w')
      = Counts.mk (Counts.run (_counts (self w)) + 1)
          (Counts.err (_counts (self w)) + 1) (Counts.succ (_counts (self w))) /\
    _last (self w') = Last.mk (Some false) (Some (epoch_at (ticks w))).
Proof.
  intros Hf. eexists. split.
  - rewrite run_response_failed by exact Hf. apply upd_eq.
  - repeat split.
Qed.

(** X11: a delivered callback records the change.  With a callback and
    no patches, a POST answered with 200 stores the digest captured when
    the GET completed, sets [updated] to the clock reading, emits exactly
    one ['change'], and counts one run and one success; the POST itself
    carries the fetched body to the callback url with the [date] and
    [content-type] headers of the GET. *)
Theorem callback_success_records_change (cb : option (M unit)) (w : World)
    (headers : gmap string string) (body : string) (r_ : Response) :
  _running (self w) = false ->
  has_patches (patches (props (self w))) = false ->
  hash (props (self w)) <> Some (makeHash headers body) ->
  truthy_str (callback (props (self w))) = true ->
  failed r_ = false ->
  exists w1 w2 w3 : World,
    run cb w = (Ok None, w1) /\
    run_response (Reply 200 headers body) w1 = (Ok tt, w2) /\
    outbox w2 = outbox w1 ++
      [(mkRequest (Some "POST"%string) (callback (props (self w)))
          (Some body)
          [("date"%string, headers !! "date"%string);
           ("content-type"%string, headers !! "content-type"%string)]
          (rq_timeout (rsrc (self w))),
        KRunCallback headers body (makeHash headers body))] /\
    run_callback_response headers body (makeHash headers body) r_ w2
      = (Ok tt, w3) /\
    props (self w3)
      = set_updated (Some (epoch_at (ticks w)))
          (set_hash (Some (makeHash headers body)) (props (self w))) /\
    emitted w3 = emitted w ++ ["change"%string] /\
    _running (self w3) = false /\
    _counts (self w3)
      = Counts.mk (Counts.run (_counts (self w)) + 1)
          (Counts.err (_counts (self w))) (Counts.succ (_counts (self w)) + 1) /\
    _last (self w3) = Last.mk (Some true) (Some (epoch_at (S (ticks w)))).
Proof.
  intros Hrun Hp Hhash Hcb Hf. eexists _, _, _.
  split; [apply run_starts, Hrun|].
  split; [apply run_response_forwards; assumption|].
  split; [reflexivity|].
  split.
  - rewrite run_callback_response_ok by exact Hf.
    rewrite succ_without_patches by exact Hp. apply upd_eq.
  - repeat split.
Qed.

(** X12: the same content twice is one change.  Without callback and
    patches, a run that records new content followed by a run that
    fetches the same content emits one ['change'] in all, keeps the
    digest and the [updated] of the first run, and counts two runs and
    two successes. *)
Theorem same_content_twice_is_one_change (cb cb' : option (M unit))
    (w : World) (headers : gmap string string) (body : string) :
  _running (self w) = false ->
  has_patches (patches (props (self w))) = false ->
  hash (props (self w)) <> Some (makeHash headers body) ->
  truthy_str (callback (props (self w))) = false ->
  exists w1 w2 w3 w4 : World,
    run cb w = (Ok None, w1) /\
    run_response (Reply 200 headers body) w1 = (Ok tt, w2) /\
    run cb' w2 = (Ok None, w3) /\
    run_response (Reply 200 headers body) w3 = (Ok tt, w4) /\
    props (self w4) = props (self w2) /\
    hash (props (self w4)) = Some (makeHash headers body) /\
    updated (props (self w4)) = Some (epoch_at (ticks w)) /\
    emitted w4 = emitted w ++ ["change"%string] /\
    Counts.run (_counts (self w4)) = Counts.run (_counts (self w)) + 2 /\
    Counts.succ (_counts (self w4)) = Counts.succ (_counts (self w)) + 2 /\
    Counts.err (_counts (self w4)) = Counts.err (_counts (self w)).
Proof.
  intros Hrun Hp Hhash Hcb. eexists _, _, _, _.
  split; [apply run_starts, Hrun|].
  split.
  { rewrite run_response_changed by assumption.
    rewrite succ_without_patches by exact Hp. apply upd_eq. }
  split; [apply run_starts; reflexivity|].
  split.
  { rewrite run_response_same_hash by reflexivity. apply upd_eq. }
  cbn [self props _counts emitted after_change with_props set_updated
         set_hash hash updated Counts.run Counts.succ Counts.err ticks
         set_running].
  repeat split; lia.
Qed.


(** ** The scheduler and the state transitions *)

Local Abbreviation sched := (sched CronJob_rejects).
Local Abbreviation sched_error := (sched_error CronJob_rejects).
Local Abbreviation timer_for := (timer_for CronJob_rejects).

Lemma sched_eq (ahead : bool) (w : World) :
  sched ahead w =
    (match sched_error (props (self w)) with
     | Some msg => Throw (Error msg)
     | None => Ok tt
     end,
     mkWorld (set_cronJob (timer_for ahead (props (self w))) (self w))
       (emitted w) (outbox w) (ticks w)).
Proof.
  unfold sched, sched_error, timer_for, CronJob_new, mbind, M_bind, get_self,
    modify_self.
  destruct w as [[p r c l j] em ob tk]. cbn [self _cronJob].
  destruct (strict_eq_num (state p) ACTIVE) eqn:Hs;
  (destruct j as [j|]; cbn [self props set_cronJob mret M_ret];
    (destruct (cron p) as [|n|pat] eqn:Hc; cbn [truthy_cron];
     [reflexivity
     |destruct (n =? 0); cbn [negb]; [reflexivity|];
      cbn [self props set_cronJob _cronJob mret M_ret throw];
      rewrite Hs; reflexivity
     |destruct (String.eqb pat ""); cbn [negb]; [reflexivity|];
      destruct (CronJob_rejects pat); [reflexivity|];
      cbn [self props set_cronJob _cronJob mret M_ret throw];
      rewrite Hs; reflexivity])).
Qed.


Lemma active_eq (ahead : bool) (w : World) :
  active Date_now ahead w =
    (Ok tt,
     if strict_eq_num (state (props (self w))) ACTIVE then w
     else after_transit Date_now (Some ahead) ACTIVE w).
Proof.
  destruct (strict_eq_num (state (props (self w))) ACTIVE) eqn:E.
  - apply active_same, strict_eq_num_true, E.
  - apply active_changes, strict_eq_num_false, E.
Qed.

Lemma stop_eq (w : World) :
  stop Date_now w =
    (Ok tt,
     if strict_eq_num (state (props (self w))) STOPPED then w
     else after_transit Date_now None STOPPED w).
Proof.
  destruct (strict_eq_num (state (props (self w))) STOPPED) eqn:E.
  - apply stop_same, strict_eq_num_true, E.
  - apply stop_changes, strict_eq_num_false, E.
Qed.

Lemma expire_eq (w : World) :
  expire Date_now w =
    (Ok tt,
     if strict_eq_num (state (props (self w))) EXPIRED then w
     else after_transit Date_now None EXPIRED w).
Proof.
  destruct (strict_eq_num (state (props (self w))) EXPIRED) eqn:E.
  - apply expire_same, strict_eq_num_true, E.
  - apply expire_changes, strict_eq_num_false, E.
Qed.

Lemma same_config_refl (p : Props) : same_config p p.
Proof. unfold same_config. repeat split. Qed.

Lemma same_config_trans (p q r : Props) :
  same_config p q -> same_config q r -> same_config p r.
Proof.
  unfold same_config.
  intros (? & ? & ? & ? & ? & ? & ? & ? & ? & ?)
         (? & ? & ? & ? & ? & ? & ? & ? & ? & ?).
  repeat split; congruence.
Qed.

Lemma transition_frame_refl (w : World) : transition_frame w w.
Proof. unfold transition_frame. repeat split. Qed.

Lemma after_transit_frame (start : option bool) (target : Z) (w : World) :
  transition_frame w (after_transit Date_now start target w).
Proof. unfold transition_frame, same_config. simpl. repeat split. Qed.

(** X18: a state transition writes [state], [updated] and the timer
    only.  After [active], [stop] or [expire], whether or not the state
    changed, every other configuration key, the digest, [_running],
    [_counts], [_last] and the queue of requests are as before. *)
Theorem transitions_keep_the_rest (ahead : bool) (w : World) :
  transition_frame w (snd (active Date_now ahead w)) /\
  transition_frame w (snd (stop Date_now w)) /\
  transition_frame w (snd (expire Date_now w)).
Proof.
  rewrite (active_eq ahead), stop_eq, expire_eq. cbn [snd].
  split; [|split];
    match goal with
    | |- context [if ?b then _ else _] => destruct b
    end; auto using transition_frame_refl, after_transit_frame.
Qed.

(** X19: expiry is not terminal.  [active] on an expired entity sets the
    state back to ACTIVE, emits a ['change'] and calls [start()] on the
    timer again; from an active entity, [expire] followed by [active]
    ends ACTIVE with [start()] called on the stopped timer and two
    ['change'] events emitted. *)
Theorem expired_entity_can_be_reactivated (ahead : bool) (w : World) :
  state (props (self w)) = Some ACTIVE ->
  exists w1 w2 : World,
    expire Date_now w = (Ok tt, w1) /\
    state (props (self w1)) = Some EXPIRED /\
    _cronJob (self w1) = CronJob_stop <$> _cronJob (self w) /\
    active Date_now ahead w1 = (Ok tt, w2) /\
    state (props (self w2)) = Some ACTIVE /\
    _cronJob (self w2) = CronJob_start ahead <$> _cronJob (self w1) /\
    emitted w2 = emitted w ++ ["change"%string; "change"%string].
Proof.
  intros Hst.
  exists (after_transit Date_now None EXPIRED w),
         (after_transit Date_now (Some ahead) ACTIVE
            (after_transit Date_now None EXPIRED w)).
  split; [rewrite expire_eq, Hst; reflexivity|].
  split; [reflexivity|].
  split.
  { cbn [after_transit self _cronJob timer_after].
    destruct (_cronJob (self w)) as [[ct o []]|]; reflexivity. }
  split; [rewrite active_eq; reflexivity|].
  split; [reflexivity|].
  split.
  { cbn [after_transit self _cronJob timer_after].
    destruct (_cronJob (self w)) as [[ct o []]|]; reflexivity. }
  cbn [after_transit emitted]. rewrite <- app_assoc. reflexivity.
Qed.

(** ** The entity over any sequence of operations *)

Local Abbreviation exec :=
  (exec Date_now sha256_hex Json JSON_parse patch_module CronJob_rejects).
Local Abbreviation exec_all :=
  (exec_all Date_now sha256_hex Json JSON_parse patch_module
     CronJob_rejects).
Local Abbreviation run_outcome := (run_outcome Date_now Json patch_module).
Local Abbreviation succ := (succ Date_now Json JSON_parse patch_module).

Lemma run_eq (cb : option (M unit)) (w : World) :
  run cb w =
    if _running (self w) then (Ok (Some false), w) else (Ok None, started w).
Proof.
  destruct (_running (self w)) eqn:E.
  - unfold run, mbind, M_bind, get_self. rewrite E. reflexivity.
  - apply run_starts, E.
Qed.

Lemma fire_eq (w : World) :
  fire Date_now w =
    match _cronJob (self w) with
    | Some j => if running j then run None (fired j w) else (Ok None, w)
    | None => (Ok None, w)
    end.
Proof.
  unfold fire, mbind, M_bind, get_self.
  destruct (_cronJob (self w)) as [j|]; [|reflexivity].
  destruct (running j); reflexivity.
Qed.

Lemma succ_outcome (w : World) (headers : gmap string string)
    (body hash' : string) :
  run_outcome w (snd (succ headers body hash' w)).
Proof.
  destruct (has_patches (patches (props (self w)))) eqn:Hp.
  - destruct (patches (props (self w))) as [|v|[|v vs]] eqn:Hvs;
      try discriminate.
    destruct (JSON_parse body) as [data|] eqn:Hj.
    + erewrite succ_with_patches; [|exact Hvs|exact Hj].
      apply out_patched.
    + erewrite succ_throws; [|exact Hvs|exact Hj].
      apply out_thrown.
  - rewrite succ_without_patches by exact Hp. apply out_changed.
Qed.

Lemma run_response_outcome (w : World) (r : Response) :
  run_outcome w (snd (run_response r w)).
Proof.
  destruct (failed r) eqn:Hf.
  - rewrite run_response_failed by exact Hf. apply out_failed.
  - destruct r as [e|st headers body]; [discriminate|].
    simpl in Hf. apply negb_false_iff, Z.eqb_eq in Hf. subst st.
    destruct (decide (hash (props (self w)) = Some (makeHash headers body)))
      as [Hh|Hh].
    + rewrite run_response_same_hash by exact Hh. apply out_nochange.
    + destruct (truthy_str (callback (props (self w)))) eqn:Hcb.
      * rewrite run_response_forwards by assumption.
        apply out_forwarded. reflexivity.
      * rewrite run_response_changed by assumption. apply succ_outcome.
Qed.

Lemma run_callback_response_outcome (w : World)
    (headers : gmap string string) (body hash' : string) (r_ : Response) :
  run_outcome w (snd (run_callback_response headers body hash' r_ w)).
Proof.
  destruct (failed r_) eqn:Hf.
  - rewrite run_callback_response_failed by exact Hf. apply out_failed.
  - rewrite run_callback_response_ok by exact Hf. apply succ_outcome.
Qed.

(** Every operation, by cases. *)
Lemma exec_complete (i : nat) (r : Response) (w : World) :
  exec (OpComplete i r) w = w \/
  exists (rq : Request) (k : Cont),
    outbox w !! i = Some (rq, k) /\
    let w0 := mkWorld (self w) (emitted w) (delete i (outbox w)) (ticks w) in
    (is_run_cont (rq, k) = false /\ exec (OpComplete i r) w = w0) \/
    (is_run_cont (rq, k) = true /\ run_outcome w0 (exec (OpComplete i r) w)).
Proof.
  unfold exec, take_request.
  destruct (outbox w !! i) as [[rq k]|] eqn:Hi; [|left; reflexivity].
  right. exists rq, k. split; [reflexivity|]. cbn zeta.
  destruct k as [cb| |headers body hash']; cbn [deliver].
  - left. split; [reflexivity|].
    apply test_response_keeps_world.
  - right. split; [reflexivity|].
    match goal with
    | |- run_outcome ?w0 (snd ((?m ≫= _) ?w0)) =>
        replace (snd ((m ≫= (fun _ => mret None)) w0)) with (snd (m w0))
    end.
    + apply run_response_outcome.
    + unfold mbind, M_bind. destruct (run_response r _) as [[[]|e] w']; reflexivity.
  - right. split; [reflexivity|].
    match goal with
    | |- run_outcome ?w0 (snd ((?m ≫= _) ?w0)) =>
        replace (snd ((m ≫= (fun _ => mret None)) w0)) with (snd (m w0))
    end.
    + apply run_callback_response_outcome.
    + unfold mbind, M_bind.
      destruct (run_callback_response _ _ _ r _) as [[[]|e] w']; reflexivity.
Qed.

Lemma exec_all_app (ops1 ops2 : list Op) (w : World) :
  exec_all (ops1 ++ ops2) w = exec_all ops2 (exec_all ops1 w).
Proof. apply fold_left_app. Qed.

Lemma exec_all_cons (o : Op) (ops : list Op) (w : World) :
  exec_all (o :: ops) w = exec_all ops (exec o w).
Proof. reflexivity. Qed.

Lemma exec_all_preserves (P : World -> Prop) :
  (forall o w, P w -> P (exec o w)) ->
  forall ops w, P w -> P (exec_all ops w).
Proof.
  intros Hstep ops. induction ops as [|o ops IH]; intros w Hw; [exact Hw|].
  apply IH, Hstep, Hw.
Qed.

(** *** Single flight *)

Lemma length_filter_delete {A : Type} (P : A -> Prop)
    `{!forall x, Decision (P x)} (l : list A) (i : nat) (e : A) :
  l !! i = Some e ->
  length (filter P l)
  = (length (filter P (delete i l)) + (if decide (P e) then 1 else 0))%nat.
Proof.
  revert i. induction l as [|x l IH]; intros [|i] Hi; try discriminate.
  - injection Hi as ->. cbn [delete list_delete].
    rewrite filter_cons. destruct (decide (P e)); simpl; lia.
  - cbn [delete list_delete]. rewrite !filter_cons.
    specialize (IH i Hi).
    destruct (decide (P x)); simpl; rewrite IH; reflexivity.
Qed.

Lemma pending_runs_queued (t : Task) (em : list string)
    (ob : list (Request * Cont)) (tk : nat) (e : Request * Cont) :
  pending_runs (mkWorld t em (ob ++ [e]) tk)
  = (pending_runs (mkWorld t em ob tk)
     + (if is_run_cont e then 1 else 0))%nat.
Proof.
  unfold pending_runs. cbn [outbox].
  rewrite filter_app, length_app, filter_cons, filter_nil.
  destruct (is_run_cont e); simpl; reflexivity.
Qed.

Lemma pending_runs_taken (w : World) (i : nat) (e : Request * Cont) :
  outbox w !! i = Some e ->
  pending_runs w
  = (pending_runs (mkWorld (self w) (emitted w) (delete i (outbox w)) (ticks w))
     + (if is_run_cont e then 1 else 0))%nat.
Proof.
  intros Hi. unfold pending_runs. cbn [outbox].
  rewrite (length_filter_delete _ _ i e Hi).
  destruct (is_run_cont e); simpl; reflexivity.
Qed.

Lemma run_outcome_single_flight (w w' : World) :
  pending_runs w = 0%nat ->
  _running (self w) = true ->
  run_outcome w w' ->
  single_flight w'.
Proof.
  intros Hp Hr Hout. unfold single_flight.
  inversion Hout; subst; rewrite ?upd_eq; cbn [snd];
    unfold pending_runs in *; cbn [outbox self _running after_change
      after_patches with_props] in *; rewrite ?Hp; try lia.
  - rewrite filter_app, length_app, Hp, filter_cons, filter_nil.
    match goal with H : is_run_cont _ = true |- _ => rewrite H end.
    rewrite Hr. simpl. lia.
Qed.

Lemma exec_single_flight (o : Op) (w : World) :
  single_flight w -> single_flight (exec o w).
Proof.
  unfold single_flight. intros Hw.
  destruct o as [ahead|ahead| | |cb| | |i r]; [cbn [exec] ..|].
  - rewrite sched_eq. exact Hw.
  - rewrite active_eq. cbn [snd].
    destruct (strict_eq_num _ ACTIVE); exact Hw.
  - rewrite stop_eq. cbn [snd].
    destruct (strict_eq_num _ STOPPED); exact Hw.
  - rewrite expire_eq. cbn [snd].
    destruct (strict_eq_num _ EXPIRED); exact Hw.
  - unfold test, mbind, M_bind, get_self, request.
    cbn [snd self]. rewrite pending_runs_queued. cbn [is_run_cont snd].
    destruct w; cbn in *. lia.
  - rewrite run_eq.
    destruct (_running (self w)) eqn:Hr; cbn [snd]; [rewrite Hr; exact Hw|].
    unfold started. rewrite pending_runs_queued.
    cbn [is_run_cont snd self set_running _running].
    destruct w; cbn in *. lia.
  - rewrite fire_eq. destruct (_cronJob (self w)) as [j|]; [|exact Hw].
    destruct (running j); [|exact Hw].
    rewrite run_eq. cbn [fired self set_cronJob _running].
    destruct (_running (self w)) eqn:Hr; cbn [snd];
      [cbn [fired self set_cronJob _running]; rewrite Hr; exact Hw|].
    unfold started. rewrite pending_runs_queued.
    cbn [is_run_cont snd self set_running _running].
    destruct w; cbn in *. lia.
  - destruct (exec_complete i r w) as [->|(rq & k & Hi & [[Hk ->]|[Hk Hout]])];
      [exact Hw| |].
    + pose proof (pending_runs_taken w i _ Hi) as Hp. rewrite Hk in Hp.
      cbn [self _running]. lia.
    + pose proof (pending_runs_taken w i _ Hi) as Hp. rewrite Hk in Hp.
      destruct (_running (self w)) eqn:Hr; [|lia].
      eapply run_outcome_single_flight; [| |exact Hout]; [lia|exact Hr].
Qed.

(** X20: single flight holds at every moment.  From an entity with no
    run in flight, after any sequence of operations (scheduling,
    transitions, probes, runs by hand, timer ticks, completions of queued
    requests in any order and with any response), at most one request of
    [run] is queued, and none is queued while [_running] is false. *)
Theorem single_flight_always (ops : list Op) (w : World) :
  pending_runs w = 0%nat ->
  _running (self w) = false ->
  (pending_runs (exec_all ops w) <= 1)%nat /\
  (_running (self (exec_all ops w)) = false ->
   pending_runs (exec_all ops w) = 0%nat).
Proof.
  intros Hp Hr.
  assert (H : single_flight (exec_all ops w)).
  { apply exec_all_preserves; [apply exec_single_flight|].
    unfold single_flight. rewrite Hp. lia. }
  unfold single_flight in H.
  destruct (_running (self (exec_all ops w))); split; intros;
    first [lia | discriminate].
Qed.

(** What one operation can do to the entity and to the trace. *)
Lemma exec_cases (o : Op) (w : World) :
  (self (exec o w) = self w /\ emitted (exec o w) = emitted w) \/
  (exists ahead : bool,
     self (exec o w)
     = set_cronJob (timer_for ahead (props (self w))) (self w) /\
     emitted (exec o w) = emitted w) \/
  (exists (start : option bool) (target : Z),
     (target = ACTIVE \/ target = STOPPED \/ target = EXPIRED) /\
     (target <> ACTIVE -> start = None) /\
     exec o w = after_transit Date_now start target w) \/
  (self (exec o w) = set_running true (self w) /\
   emitted (exec o w) = emitted w) \/
  (exists j : CronJob,
     _cronJob (self w) = Some j /\ running j = true /\
     (self (exec o w) = self (fired j w) \/
      self (exec o w) = set_running true (self (fired j w))) /\
     emitted (exec o w) = emitted w) \/
  (exists w0 : World,
     self w0 = self w /\ emitted w0 = emitted w /\
     run_outcome w0 (exec o w)).
Proof.
  destruct o as [ahead|ahead| | |cb| | |i r]; [cbn [exec] ..|].
  - right; left. exists ahead. rewrite sched_eq. split; reflexivity.
  - rewrite active_eq. cbn [snd].
    destruct (strict_eq_num _ ACTIVE); [left; split; reflexivity|].
    right; right; left. exists (Some ahead), ACTIVE.
    split; [auto|]. split; [congruence|reflexivity].
  - rewrite stop_eq. cbn [snd].
    destruct (strict_eq_num _ STOPPED); [left; split; reflexivity|].
    right; right; left. exists None, STOPPED. auto.
  - rewrite expire_eq. cbn [snd].
    destruct (strict_eq_num _ EXPIRED); [left; split; reflexivity|].
    right; right; left. exists None, EXPIRED. auto.
  - left. split; reflexivity.
  - rewrite run_eq. destruct (_running (self w)); cbn [snd].
    + left. split; reflexivity.
    + right; right; right; left. split; reflexivity.
  - rewrite fire_eq.
    destruct (_cronJob (self w)) as [j|] eqn:Hj; [|left; split; reflexivity].
    destruct (running j) eqn:Hrun; [|left; split; reflexivity].
    right; right; right; right; left. exists j.
    split; [reflexivity|]. split; [exact Hrun|].
    rewrite run_eq. destruct (_running (self (fired j w))); cbn [snd].
    + split; [left|]; reflexivity.
    + split; [right|]; reflexivity.
  - destruct (exec_complete i r w) as [->|(rq & k & Hi & [[Hk ->]|[Hk Hout]])].
    + left. split; reflexivity.
    + left. split; reflexivity.
    + right; right; right; right; right.
      eexists. split; [|split; [|exact Hout]]; reflexivity.
Qed.

(** *** Run statistics *)

Lemma statistics_after_upd (s : bool) (w0 : World) (t : Task) :
  statistics_add_up t ->
  _counts (self w0) = _counts t ->
  statistics_add_up (self (snd (upd Date_now s w0))).
Proof.
  intros (Hs & He & Hr & Hl & Hshape) Hc. rewrite upd_eq. cbn [snd self].
  unfold statistics_add_up. cbn [_counts _last Counts.succ Counts.err Counts.run].
  rewrite Hc.
  split; [destruct s; lia|]. split; [destruct s; lia|].
  split; [destruct s; lia|]. split.
  - split; [lia|discriminate].
  - right. eauto.
Qed.

Lemma statistics_same (t t' : Task) :
  statistics_add_up t ->
  _counts t' = _counts t -> _last t' = _last t ->
  statistics_add_up t'.
Proof. unfold statistics_add_up. intros H -> ->. exact H. Qed.

Lemma exec_statistics (o : Op) (w : World) :
  (forall v t data, _counts (patch_module v t data) = _counts t) ->
  statistics_add_up (self w) -> statistics_add_up (self (exec o w)).
Proof.
  intros Hkeep Hw.
  destruct (exec_cases o w)
    as [[-> _]|[(ah & -> & _)|[(st & tg & _ & _ & ->)|[[-> _]
       |[(j & _ & _ & [-> | ->] & _)|(w0 & Hs & _ & Hout)]]]]];
    try exact Hw; try (eapply statistics_same; [exact Hw|reflexivity..]).
  revert Hout. generalize (exec o w). intros w' Hout. destruct Hout.
  - apply (statistics_after_upd _ _ (self w)); [exact Hw|]. rewrite Hs; reflexivity.
  - apply (statistics_after_upd _ _ (self w)); [exact Hw|]. rewrite Hs; reflexivity.
  - cbn [self]. rewrite Hs. exact Hw.
  - apply (statistics_after_upd _ _ (self w)); [exact Hw|].
    cbn [after_change self with_props _counts]. rewrite Hs; reflexivity.
  - apply (statistics_after_upd _ _ (self w)); [exact Hw|].
    cbn [after_patches after_change self with_props _counts].
    rewrite (fold_patches_keep _ _ _counts Hkeep). cbn [_counts]. rewrite Hs; reflexivity.
  - eapply statistics_same; [exact Hw| |];
      cbn [after_change self with_props _counts _last]; rewrite Hs; reflexivity.
Qed.

(** X21: the run statistics add up at every moment.  When the patch
    modules leave [_counts] alone, after any sequence of operations on a
    constructed entity no counter is negative, [run = succ + err], and
    [_last] is still [{succ: null, date: null}] exactly when no run has
    been counted; otherwise both of its fields are set. *)
Theorem statistics_add_up_always (ops : list Op) (t : Task)
    (task : option Obj) (k k' : nat) :
  (forall v t data, _counts (patch_module v t data) = _counts t) ->
  Task_new Date_now task k = (Ok t, k') ->
  statistics_add_up (self (exec_all ops (mkWorld t [] [] k'))).
Proof.
  intros Hkeep Hnew.
  apply (exec_all_preserves (fun w => statistics_add_up (self w))).
  - intros o w. apply exec_statistics, Hkeep.
  - destruct task as [o|];
      [|unfold Task_new in Hnew; simpl in Hnew; discriminate].
    destruct (Task_new_inv _ _ _ _ _ Hnew) as (_ & _ & -> & _).
    unfold statistics_add_up. cbn. repeat split; try lia. left; reflexivity.
Qed.

(** *** Configuration *)

Lemma fold_patches_same_config (data : Json) (vs : list string) (t : Task) :
  (forall v t data, same_config (props (patch_module v t data)) (props t)) ->
  same_config
    (props (fold_left (fun t v => patch_module v t data) vs t)) (props t).
Proof.
  intros Hkeep. revert t. induction vs as [|v vs IH]; intros t.
  - apply same_config_refl.
  - cbn [fold_left]. eapply same_config_trans; [apply IH|apply Hkeep].
Qed.

Lemma same_config_written (p : Props) (st : option Z) (h : option string)
    (u : option Z) :
  same_config (set_updated u p) p /\ same_config (set_hash h p) p /\
  same_config (set_state st p) p.
Proof. unfold same_config. repeat split. Qed.

Lemma exec_same_config (o : Op) (w : World) :
  (forall v t data, same_config (props (patch_module v t data)) (props t)) ->
  same_config (props (self (exec o w))) (props (self w)).
Proof.
  intros Hkeep.
  destruct (exec_cases o w)
    as [[-> _]|[(ah & -> & _)|[(st & tg & _ & _ & ->)|[[-> _]
       |[(j & _ & _ & [-> | ->] & _)|(w0 & Hs & _ & Hout)]]]]];
    try apply same_config_refl.
  - unfold same_config. cbn. repeat split.
  - rewrite <- Hs. revert Hout. generalize (exec o w). intros w' Hout.
    destruct Hout; rewrite ?upd_eq; cbn [snd self props];
      try apply same_config_refl.
    + unfold same_config. cbn. repeat split.
    + cbn [after_patches self with_props props].
      eapply same_config_trans; [apply same_config_written; exact None|].
      eapply same_config_trans; [apply fold_patches_same_config, Hkeep|].
      unfold same_config. cbn. repeat split.
    + unfold same_config. cbn. repeat split.
Qed.

(** X22: after construction only [state], [hash] and [updated] are ever
    written.  When the patch modules leave the other configuration keys
    alone, any sequence of operations leaves [name], [url], [callback],
    [timeout], the two templates, [patches], [cron], [expireAt] and
    [created] as they were; in particular a timer set up from [cron]
    keeps describing the stored [cron]. *)
Theorem configuration_is_never_rewritten (ops : list Op) (w : World) :
  (forall v t data, same_config (props (patch_module v t data)) (props t)) ->
  same_config (props (self (exec_all ops w))) (props (self w)).
Proof.
  intros Hkeep.
  apply (exec_all_preserves
           (fun w' => same_config (props (self w')) (props (self w)))).
  - intros o w' Hw'. eapply same_config_trans; [|exact Hw'].
    apply exec_same_config, Hkeep.
  - apply same_config_refl.
Qed.

(** *** State and timer *)

Lemma exec_state_in_enum (o : Op) (w : World) :
  (forall v t data, state (props (patch_module v t data)) = state (props t)) ->
  state_in_enum (props (self w)) -> state_in_enum (props (self (exec o w))).
Proof.
  intros Hkeep Hw. unfold state_in_enum in *.
  destruct (exec_cases o w)
    as [[-> _]|[(ah & -> & _)|[(st & tg & Htg & _ & ->)|[[-> _]
       |[(j & _ & _ & [-> | ->] & _)|(w0 & Hs & _ & Hout)]]]]];
    try exact Hw.
  - cbn. destruct Htg as [-> | [-> | ->]]; auto.
  - rewrite <- Hs in Hw. revert Hout. generalize (exec o w). intros w' Hout.
    destruct Hout; rewrite ?upd_eq; cbn [snd self props]; try exact Hw.
    cbn [after_patches self with_props props set_updated state].
    rewrite (fold_patches_keep _ _ (fun t => state (props t)) Hkeep).
    exact Hw.
Qed.

(** X23: [state] stays one of the three constants.  The constructor
    keeps any truthy [state] it is given, so the property is about what
    follows: when the patch modules leave [state] alone, an entity whose
    state is ACTIVE, STOPPED or EXPIRED is in one of these three states
    after any sequence of operations; and an entity constructed without a
    [state] starts ACTIVE. *)
Theorem state_stays_in_enum (ops : list Op) (w : World) :
  (forall v t data, state (props (patch_module v t data)) = state (props t)) ->
  (state_in_enum (props (self w)) ->
   state_in_enum (props (self (exec_all ops w)))) /\
  (forall (o : Obj) (k k' : nat) (t : Task),
     state (o_props o) = None ->
     Task_new Date_now (Some o) k = (Ok t, k') ->
     state (props t) = Some ACTIVE /\
     state_in_enum
       (props (self (exec_all ops (mkWorld t [] [] k'))))).
Proof.
  intros Hkeep.
  assert (Hall : forall w0, state_in_enum (props (self w0)) ->
                            state_in_enum (props (self (exec_all ops w0)))).
  { intros w0. apply (exec_all_preserves (fun w => state_in_enum (props (self w)))).
    intros o' w'. apply exec_state_in_enum, Hkeep. }
  split; [apply Hall|].
  intros o k k' t Hst Hnew.
  assert (Ht : state (props t) = Some ACTIVE).
  { destruct (Task_new_inv _ _ _ _ _ Hnew) as (_ & _ & -> & _). cbn [props].
    rewrite state_default_updated, state_default_created,
      state_offset_expireAt, state_offset_cron, state_wrap_patches.
    unfold default_state. rewrite Hst. reflexivity. }
  split; [exact Ht|]. apply Hall. left. exact Ht.
Qed.

Lemma exec_armed_only_when_active (o : Op) (w : World) :
  (forall v t data, state (props (patch_module v t data)) = state (props t)) ->
  (forall v t data, _cronJob (patch_module v t data) = _cronJob t) ->
  armed_only_when_active (self w) -> armed_only_when_active (self (exec o w)).
Proof.
  intros Hks Hkj Hw. unfold armed_only_when_active in *.
  destruct (exec_cases o w)
    as [[-> _]|[(ah & -> & _)|[(st & tg & Htg & Hst & ->)|[[-> _]
       |[(j & Hj & Hrun & [-> | ->] & _)|(w0 & Hs & _ & Hout)]]]]];
    try exact Hw.
  - cbn [set_cronJob _cronJob props]. unfold timer_for. intros j.
    destruct (cron (props (self w))) as [|c|pat]; [discriminate| |].
    + destruct (c =? 0); [discriminate|]. intros [= <-]. cbn [running].
      intros [H _]%andb_true_iff. apply strict_eq_num_true, H.
    + destruct (String.eqb pat ""); [discriminate|].
      destruct (CronJob_rejects pat); [discriminate|].
      intros [= <-]. cbn [running]. apply strict_eq_num_true.
  - cbn [after_transit self _cronJob props set_updated set_state state
           timer_after].
    intros j Hj Hrun.
    destruct (Z.eq_dec tg ACTIVE) as [->|Hne]; [reflexivity|].
    rewrite (Hst Hne) in Hj. exfalso.
    destruct (_cronJob (self w)) as [[ct oc rn]|]; [|discriminate].
    cbn [running] in Hj. destruct rn; injection Hj as <-; discriminate.
  - cbn [fired self set_cronJob _cronJob props]. intros j' [= <-] _.
    exact (Hw j Hj Hrun).
  - cbn [fired self set_cronJob set_running _cronJob props].
    intros j' [= <-] _. exact (Hw j Hj Hrun).
  - rewrite <- Hs in Hw. revert Hout. generalize (exec o w). intros w' Hout.
    destruct Hout; rewrite ?upd_eq; cbn [snd self props _cronJob];
      try exact Hw.
    cbn [after_patches self with_props props set_updated state _cronJob].
    rewrite (fold_patches_keep _ _ (fun t => state (props t)) Hks).
    rewrite (fold_patches_keep _ _ _cronJob Hkj).
    exact Hw.
Qed.

(** X24: only an active entity holds a running timer.  When the patch
    modules leave [state] and the timer handle alone, after any sequence
    of operations on a constructed entity (scheduling with any answer of
    the library, transitions, probes, runs, firings of the timer,
    completions) a timer that the library reports as running belongs to
    an entity whose state is ACTIVE: a stopped or expired entity never
    holds a running timer.  The converse does not hold: the timer of an
    active entity is not running once a one-shot job has fired, or when
    its date had passed at the time it was started. *)
Theorem running_timer_means_active (ops : list Op) (t : Task)
    (task : option Obj) (k k' : nat) :
  (forall v t data, state (props (patch_module v t data)) = state (props t)) ->
  (forall v t data, _cronJob (patch_module v t data) = _cronJob t) ->
  Task_new Date_now task k = (Ok t, k') ->
  armed_only_when_active (self (exec_all ops (mkWorld t [] [] k'))).
Proof.
  intros Hks Hkj Hnew.
  apply (exec_all_preserves (fun w => armed_only_when_active (self w))).
  - intros o w. apply exec_armed_only_when_active; assumption.
  - destruct task as [o|];
      [|unfold Task_new in Hnew; simpl in Hnew; discriminate].
    destruct (Task_new_inv _ _ _ _ _ Hnew) as (_ & _ & -> & _).
    intros j. discriminate.
Qed.

(** *** The trace of events *)

Lemma exec_emits_changes (o : Op) (w : World) :
  exists n : nat,
    (n <= 2)%nat /\
    emitted (exec o w) = emitted w ++ replicate n "change"%string.
Proof.
  destruct (exec_cases o w)
    as [[_ ->]|[(ah & _ & ->)|[(st & tg & _ & _ & ->)|[[_ ->]
       |[(j & _ & _ & _ & ->)|(w0 & _ & <- & Hout)]]]]];
    try (exists 0%nat; split; [lia|]; cbn [replicate]; rewrite app_nil_r;
         reflexivity).
  - exists 1%nat. split; [lia|]. reflexivity.
  - revert Hout. generalize (exec o w). intros w' Hout.
    destruct Hout; rewrite ?upd_eq; cbn [snd emitted after_change after_patches];
      try (exists 0%nat; split; [lia|]; cbn [replicate]; rewrite app_nil_r;
           reflexivity);
      try (exists 1%nat; split; [lia|]; reflexivity).
    exists 2%nat. split; [lia|]. rewrite <- app_assoc. reflexivity.
Qed.

(** X25: the entity emits ['change'] and nothing else, at most twice per
    operation.  After any sequence of operations the trace of events is
    the earlier trace followed by ['change'] events only, no more than
    two for each operation performed. *)
Theorem only_change_is_emitted (ops : list Op) (w : World) :
  exists n : nat,
    (n <= 2 * length ops)%nat /\
    emitted (exec_all ops w) = emitted w ++ replicate n "change"%string.
Proof.
  revert w. induction ops as [|o ops IH]; intros w.
  - exists 0%nat. split; [simpl; lia|]. cbn [replicate].
    rewrite app_nil_r. reflexivity.
  - destruct (exec_emits_changes o w) as (n1 & Hn1 & H1).
    destruct (IH (exec o w)) as (n2 & Hn2 & H2).
    exists (n1 + n2)%nat. split; [cbn [length]; lia|].
    change (exec_all (o :: ops) w) with (exec_all ops (exec o w)).
    rewrite H2, H1, <- app_assoc, replicate_add. reflexivity.
Qed.

(** *** After a throw *)

Lemma exec_stuck (o : Op) (w : World) :
  stuck w ->
  stuck (exec o w) /\
  _counts (self (exec o w)) = _counts (self w) /\
  _last (self (exec o w)) = _last (self w) /\
  hash (props (self (exec o w))) = hash (props (self w)).
Proof.
  unfold stuck. intros (Hr & Hp).
  destruct o as [ahead|ahead| | |cb| | |i r]; [cbn [exec] ..|].
  - rewrite sched_eq. cbn [snd self set_cronJob _running _counts _last props].
    repeat split; assumption.
  - rewrite active_eq. cbn [snd].
    destruct (strict_eq_num _ ACTIVE); repeat split; assumption.
  - rewrite stop_eq. cbn [snd].
    destruct (strict_eq_num _ STOPPED); repeat split; assumption.
  - rewrite expire_eq. cbn [snd].
    destruct (strict_eq_num _ EXPIRED); repeat split; assumption.
  - unfold test, mbind, M_bind, get_self, request. cbn [snd self].
    rewrite pending_runs_queued. cbn [is_run_cont snd].
    repeat split; try assumption.
    destruct w; cbn in *. lia.
  - rewrite run_eq, Hr. cbn [snd]. repeat split; assumption.
  - rewrite fire_eq. destruct (_cronJob (self w)) as [j|];
      [destruct (running j);
       [rewrite run_eq; cbn [fired self set_cronJob _running]; rewrite Hr|]|];
      cbn [snd]; repeat split; assumption.
  - destruct (exec_complete i r w) as [->|(rq & k & Hi & [[Hk ->]|[Hk Hout]])].
    + repeat split; assumption.
    + pose proof (pending_runs_taken w i _ Hi) as Ht. rewrite Hk in Ht.
      cbn [self]. repeat split; try assumption. lia.
    + pose proof (pending_runs_taken w i _ Hi) as Ht. rewrite Hk in Ht. lia.
Qed.

Lemma stuck_forever (ops : list Op) (w : World) :
  stuck w ->
  stuck (exec_all ops w) /\
  _counts (self (exec_all ops w)) = _counts (self w) /\
  _last (self (exec_all ops w)) = _last (self w) /\
  hash (props (self (exec_all ops w))) = hash (props (self w)).
Proof.
  intros Hw.
  apply (exec_all_preserves
           (fun w' => stuck w' /\ _counts (self w') = _counts (self w) /\
                      _last (self w') = _last (self w) /\
                      hash (props (self w')) = hash (props (self w)))).
  - intros o w' (Hs & Hc & Hl & Hh).
    destruct (exec_stuck o w' Hs) as (Hs' & Hc' & Hl' & Hh').
    repeat split; try apply Hs'; congruence.
  - repeat split; apply Hw.
Qed.

(** X26: a run that ends in the throw of [JSON.parse] is the last one.
    Take an idle entity with patches and no callback, nothing of [run]
    queued, and [run] it; let the GET complete with new content whose
    body does not parse.  Then whatever operations follow, [_running]
    stays true, every further [run] is rejected, and [_counts] and
    [_last] stay what they were before that run. *)
Theorem throw_in_patch_blocks_the_entity (ops : list Op) (w : World)
    (headers : gmap string string) (body : string) :
  _running (self w) = false ->
  pending_runs w = 0%nat ->
  has_patches (patches (props (self w))) = true ->
  truthy_str (callback (props (self w))) = false ->
  hash (props (self w)) <> Some (makeHash headers body) ->
  JSON_parse body = None ->
  let w' :=
    exec_all
      (OpRun :: OpComplete (length (outbox w)) (Reply 200 headers body) :: ops)
      w in
  _running (self w') = true /\
  run None w' = (Ok (Some false), w') /\
  _counts (self w') = _counts (self w) /\
  _last (self w') = _last (self w).
Proof.
  intros Hr Hp Hpatch Hcb Hhash Hj w'.
  destruct (patches (props (self w))) as [|v|[|v vs]] eqn:Hvs;
    try discriminate.
  set (w2 := after_change Date_now (makeHash headers body)
               (mkWorld (set_running true (self w)) (emitted w) (outbox w)
                  (ticks w))).
  assert (Hw' : w' = exec_all ops w2).
  { subst w'. rewrite !exec_all_cons. f_equal.
    unfold exec. rewrite run_eq, Hr. cbn [snd].
    unfold take_request, started. cbn [outbox self emitted ticks].
    rewrite list_lookup_middle by reflexivity.
    rewrite delete_middle, app_nil_r. cbn [deliver].
    unfold mbind at 1, M_bind at 1.
    rewrite run_response_changed by assumption.
    erewrite succ_throws; [reflexivity|exact Hvs|exact Hj]. }
  assert (Hstuck : stuck w2) by (split; [reflexivity|exact Hp]).
  destruct (stuck_forever ops w2 Hstuck) as ((Hr' & _) & Hc & Hl & _).
  rewrite Hw'. split; [exact Hr'|].
  split; [rewrite run_eq, Hr'; reflexivity|].
  split; [rewrite Hc; reflexivity|rewrite Hl; reflexivity].
Qed.
End ProbeAndRun.

(** ** The further properties at concrete inputs *)

Lemma construction_defaults_witness :
  state (props t1_constructed) = Some ACTIVE /\
  patches (props t1_constructed) = PUndef /\
  updated (props t1_constructed) = created (props t1_constructed).
Proof.
  destruct (construction_defaults example_clock example_t1 0 2 t1_constructed
              eq_refl) as (H1 & H2 & _ & _ & _ & H6 & _).
  split; [exact H1|]. split; [exact H2|]. exact (H6 eq_refl).
Defined.

Lemma expireAt_normalised_at_construction_witness :
  exists (t : Task) (k' : nat),
    Task_new example_clock (Some example_t4) 0 = (Ok t, k') /\
    expireAt (props t) = Some (60 + 1001).
Proof.
  eexists _, _. split; [reflexivity|].
  exact (expireAt_normalised_at_construction example_clock example_t4 0 _ _
           eq_refl).
Defined.

Lemma toString_keyed_on_name_witness :
  toString t1_constructed = "[object Task('t1')]"%string /\
  (toString t1_constructed = toString t2 <-> "t1"%string = "t2"%string).
Proof.
  split; [reflexivity|].
  exact (toString_keyed_on_name t1_constructed t2 "t1" "t2" eq_refl eq_refl).
Defined.

Lemma test_and_run_agree_witness :
  exists w' : World,
    run_response example_clock example_digest JsonLiteral example_parse
      example_patch (Reply 200 example_headers "hello") (world_of t2)
    = (Ok tt, w') /\
    props (self w') = t2_props /\ emitted w' = [].
Proof.
  destruct (test_and_run_agree example_clock example_digest JsonLiteral
              example_parse example_patch (world_of t2) example_headers
              "hello" false eq_refl) as (H & _).
  destruct (H eq_refl) as (w' & H1 & H2 & H3 & _).
  exists w'. split; [exact H1|]. split; [exact H2|exact H3].
Defined.

Lemma change_detection_reads_concatenation_witness :
  test_response example_digest true (Reply 200 shifted_headers "nhello")
    (world_of t2)
  = (Ok (Some (CbOk shifted_headers "nhello" false)), world_of t2).
Proof.
  exact (proj1 (change_detection_reads_concatenation example_clock
                  example_digest JsonLiteral example_parse example_patch
                  (world_of t2) example_headers shifted_headers
                  "hello" "nhello" eq_refl eq_refl)).
Defined.

Lemma fetch_failure_counts_error_witness :
  failed (Reply 404 ∅ "") = true /\
  exists w' : World,
    run_response example_clock example_digest JsonLiteral example_parse
      example_patch (Reply 404 ∅ "") t1_in_flight = (Ok tt, w') /\
    props (self w') = props t1_constructed /\
    _counts (self w') = Counts.mk 1 1 0.
Proof.
  split; [reflexivity|].
  destruct (fetch_failure_counts_error example_clock example_digest
              JsonLiteral example_parse example_patch t1_in_flight
              (Reply 404 ∅ "") eq_refl)
    as (w' & H1 & H2 & _ & _ & _ & _ & H7 & _).
  exists w'. split; [exact H1|]. split; [exact H2|exact H7].
Defined.

Lemma callback_success_records_change_witness :
  exists w1 w2 w3 : World,
    run None (world_of t5) = (Ok None, w1) /\
    run_response example_clock example_digest JsonLiteral example_parse
      example_patch (Reply 200 example_headers "hello") w1 = (Ok tt, w2) /\
    run_callback_response example_clock JsonLiteral example_parse
      example_patch example_headers "hello"
      (makeHash example_digest example_headers "hello")
      (Reply 200 ∅ "ok") w2 = (Ok tt, w3) /\
    hash (props (self w3))
      = Some (makeHash example_digest example_headers "hello") /\
    emitted w3 = ["change"%string] /\
    _counts (self w3) = Counts.mk 1 0 1.
Proof.
  destruct (callback_success_records_change example_clock example_digest
              JsonLiteral example_parse example_patch None (world_of t5)
              example_headers "hello" (Reply 200 ∅ "ok")
              eq_refl eq_refl ltac:(discriminate) eq_refl eq_refl)
    as (w1 & w2 & w3 & H1 & H2 & _ & H4 & H5 & H6 & _ & H8 & _).
  exists w1, w2, w3. do 3 (split; [assumption|]).
  split; [rewrite H5; reflexivity|]. split; [exact H6|exact H8].
Defined.

Lemma same_content_twice_is_one_change_witness :
  exists w1 w2 w3 w4 : World,
    run None (world_of t1_constructed) = (Ok None, w1) /\
    run_response example_clock example_digest JsonLiteral example_parse
      example_patch (Reply 200 example_headers "hello") w1 = (Ok tt, w2) /\
    run None w2 = (Ok None, w3) /\
    run_response example_clock example_digest JsonLiteral example_parse
      example_patch (Reply 200 example_headers "hello") w3 = (Ok tt, w4) /\
    emitted w4 = ["change"%string] /\
    Counts.run (_counts (self w4)) = 2.
Proof.
  destruct (same_content_twice_is_one_change example_clock example_digest
              JsonLiteral example_parse example_patch None None
              (world_of t1_constructed) example_headers "hello"
              eq_refl eq_refl ltac:(discriminate) eq_refl)
    as (w1 & w2 & w3 & w4 & H1 & H2 & H3 & H4 & _ & _ & _ & H8 & H9 & _).
  exists w1, w2, w3, w4. do 4 (split; [assumption|]).
  split; [exact H8|exact H9].
Defined.

Lemma expired_entity_can_be_reactivated_witness :
  exists w1 w2 : World,
    expire example_clock t1_scheduled = (Ok tt, w1) /\
    _cronJob (self w1) = Some (mkCronJob (AtDate 1030000) true false) /\
    active example_clock true w1 = (Ok tt, w2) /\
    state (props (self w2)) = Some ACTIVE /\
    _cronJob (self w2) = Some (mkCronJob (AtDate 1030000) true true).
Proof.
  destruct (expired_entity_can_be_reactivated example_clock true t1_scheduled
              eq_refl) as (w1 & w2 & H1 & _ & H3 & H4 & H5 & H6 & _).
  exists w1, w2. split; [exact H1|]. split; [exact H3|].
  split; [exact H4|]. split; [exact H5|].
  rewrite H3 in H6. exact H6.
Defined.

Lemma single_flight_always_witness :
  (pending_runs
     (exec_all example_clock example_digest JsonLiteral example_parse
        example_patch example_rejects example_ops (world_of t1_constructed)) <= 1)%nat.
Proof.
  exact (proj1 (single_flight_always example_clock example_digest JsonLiteral
                  example_parse example_patch example_rejects example_ops
                  (world_of t1_constructed) eq_refl eq_refl)).
Defined.

Lemma statistics_add_up_always_witness :
  statistics_add_up
    (self (exec_all example_clock example_digest JsonLiteral example_parse
             example_patch example_rejects example_ops (mkWorld t1_constructed [] [] 2))).
Proof.
  exact (statistics_add_up_always example_clock example_digest JsonLiteral
           example_parse example_patch example_rejects example_ops t1_constructed
           (Some example_t1) 0 2 (fun _ _ _ => eq_refl) eq_refl).
Defined.

Lemma configuration_is_never_rewritten_witness :
  same_config
    (props (self (exec_all example_clock example_digest JsonLiteral
                    example_parse example_patch example_rejects example_ops (world_of t2))))
    t2_props.
Proof.
  exact (configuration_is_never_rewritten example_clock example_digest
           JsonLiteral example_parse example_patch example_rejects example_ops (world_of t2)
           (fun _ t _ => same_config_refl (props t))).
Defined.

Lemma state_stays_in_enum_witness :
  state_in_enum (props t2) /\
  state_in_enum
    (props (self (exec_all example_clock example_digest JsonLiteral
                    example_parse example_patch example_rejects example_ops (world_of t2)))).
Proof.
  assert (H : state_in_enum (props t2)) by (left; reflexivity).
  split; [exact H|].
  exact (proj1 (state_stays_in_enum example_clock example_digest JsonLiteral
                  example_parse example_patch example_rejects example_ops (world_of t2)
                  (fun _ _ _ => eq_refl)) H).
Defined.

Lemma running_timer_means_active_witness :
  armed_only_when_active
    (self (exec_all example_clock example_digest JsonLiteral example_parse
             example_patch example_rejects example_ops
             (mkWorld t1_constructed [] [] 2))).
Proof.
  exact (running_timer_means_active example_clock example_digest JsonLiteral
           example_parse example_patch example_rejects example_ops t1_constructed
           (Some example_t1) 0 2 (fun _ _ _ => eq_refl) (fun _ _ _ => eq_refl)
           eq_refl).
Defined.


(** A one-shot timer that has fired is no longer running: [stop] then
    makes no call on it, and a later [active] starts it again only if its
    date is still ahead. *)
Example one_shot_fired_then_stopped :
  let w :=
    exec_all example_clock example_digest JsonLiteral example_parse
      example_patch example_rejects one_shot_ops
      (mkWorld t1_constructed [] [] 2) in
  state (props (self w)) = Some STOPPED /\
  _cronJob (self w) = Some (mkCronJob (AtDate 1030000) true false) /\
  _cronJob (self (snd (active example_clock false w))) = _cronJob (self w).
Proof. vm_compute. repeat split. Qed.

(** A one-shot timer whose date has passed is not running after
    [sched], and a firing that the library does not make changes
    nothing. *)
Example one_shot_in_the_past :
  let w :=
    mkWorld
      (set_cronJob (Some (mkCronJob (AtDate 1030000) true false))
         t1_constructed) [] [] 2 in
  sched example_rejects false (mkWorld t1_constructed [] [] 2) = (Ok tt, w) /\
  fire example_clock w = (Ok None, w).
Proof. split; reflexivity. Qed.

Lemma throw_in_patch_blocks_the_entity_witness :
  example_parse "<html>" = None /\
  _running
    (self (exec_all example_clock example_digest JsonLiteral example_parse
             example_patch example_rejects
             (OpRun :: OpComplete 0 (Reply 200 example_headers "<html>")
                :: example_ops)
             (world_of t3))) = true.
Proof.
  split; [reflexivity|].
  exact (proj1 (throw_in_patch_blocks_the_entity example_clock example_digest
                  JsonLiteral example_parse example_patch example_rejects example_ops
                  (world_of t3) example_headers "<html>"
                  eq_refl eq_refl eq_refl eq_refl ltac:(discriminate)
                  eq_refl)).
Defined.

Lemma fresh_task_round_trips_witness :
  exists (t : Task) (k' : nat),
    Task_new clock_2023 (Some example_t4) 0 = (Ok t, k') /\
    round_trips clock_2023 5 t.
Proof.
  eexists _, _. split; [reflexivity|].
  eapply (fresh_task_round_trips clock_2023 example_t4 0).
  - intros j. vm_compute. discriminate.
  - intros c [= <-]. lia.
  - intros e [= <-]. lia.
  - reflexivity.
Defined.

Lemma run_finalized_without_patches_witness :
  exists (w1 w2 : World) (s : bool),
    run None (world_of t1_constructed) = (Ok None, w1) /\
    run_response example_clock example_digest JsonLiteral example_parse
      example_patch (Reply 200 example_headers "hello") w1 = (Ok tt, w2) /\
    finalized example_clock s (world_of t1_constructed) w2.
Proof.
  exact (run_finalized_without_patches example_clock example_digest
           JsonLiteral example_parse example_patch None
           (world_of t1_constructed) (Reply 200 example_headers "hello")
           eq_refl eq_refl eq_refl).
Defined.

Lemma run_finalized_with_patches_witness :
  example_parse "null" = Some JNull /\
  exists w1 w2 : World,
    run None (world_of t3) = (Ok None, w1) /\
    run_response example_clock example_digest JsonLiteral example_parse
      example_patch (Reply 200 example_headers "null") w1 = (Ok tt, w2) /\
    finalized example_clock true (world_of t3) w2.
Proof.
  split; [reflexivity|].
  exact (run_finalized_with_patches example_clock example_digest JsonLiteral
           example_parse example_patch None (world_of t3) example_headers
           "null" "p" [] JNull (fun _ _ _ => eq_refl)
           eq_refl ltac:(discriminate) eq_refl eq_refl eq_refl).
Defined.

Lemma change_recorded_with_patches_witness :
  exists w1 w2 : World,
    run None (world_of t3) = (Ok None, w1) /\
    run_response example_clock example_digest JsonLiteral example_parse
      example_patch (Reply 200 example_headers "null") w1 = (Ok tt, w2) /\
    hash (props (self w2))
      = Some (makeHash example_digest example_headers "null") /\
    emitted w2 = ["change"%string; "change"%string] /\
    Counts.succ (_counts (self w2)) = 4.
Proof.
  destruct (change_recorded_with_patches example_clock example_digest
              JsonLiteral example_parse example_patch None (world_of t3)
              example_headers "null" "p" [] JNull
              (fun _ _ _ => eq_refl) (fun _ _ _ => eq_refl)
              eq_refl ltac:(discriminate) eq_refl eq_refl eq_refl)
    as (w1 & w2 & H1 & H2 & H3 & _ & H5 & H6).
  exists w1, w2. do 3 (split; [assumption|]). split; [exact H6|exact H5].
Defined.

Lemma construction_outcome_witness :
  (exists (t : Task) (k' : nat),
     Task_new example_clock (Some example_t1) 0 = (Ok t, k')) /\
  Task_new example_clock (Some blank) 7
  = (Throw (Error "`name` must has a value"), 7%nat) /\
  Task_new example_clock
    (Some (mkObj (set_state None (props t5)) None None None)) 7
  = (Ok (mkTask (props t5) false Counts.zero Last.null None), 7%nat).
Proof.
  split; [|split].
  - apply (proj1 (construction_outcome example_clock example_t1 0)).
    split; reflexivity.
  - apply (proj1 (proj2 (construction_outcome example_clock blank 7))).
    reflexivity.
  - reflexivity.
Defined.

Lemma _Now_truncates_and_wraps_witness :
  epoch_at example_clock 0 = 1000 /\
  epoch_at (fun _ => 2 ^ 31 * 1000) 0 = - 2 ^ 31.
Proof.
  split; [|reflexivity].
  apply (proj1 (proj2 (proj2 (_Now_truncates_and_wraps example_clock 0)))).
  vm_compute. split; [discriminate|reflexivity].
Defined.

